(** * Fundamental-analysis dataset generator

    A shallow embedding of [value_investing/fundamental_analysis_generator.py]
    (class [InvestingAnalysis]) and the properties of its three methods:
    [get_historical_price], [fundamental_analysis] and [dataset_generator].

    The program is written against pandas and yfinance.  The fragment of
    pandas it uses is embedded in [Module pd], the statement and price
    provider in [Module yf].  Cell values are IEEE binary64 numbers, as in
    Python; a missing cell is NaN. *)

From Stdlib Require Import ZArith List String Bool Floats Lia.
From Stdlib Require Import Sorting.Sorted.
Import ListNotations.
Local Open Scope string_scope.
Local Open Scope list_scope.
Local Open Scope Z_scope.

(** ** Exceptions *)

Inductive exn : Type :=
| KeyError (key : string)
| AttributeError (what : string)
| UnboundLocalError (var : string)
| TypeError
| ValueError
| IndexError
| OSError.

Inductive res (A : Type) : Type :=
| Ok (a : A)
| Raise (e : exn).
Arguments Ok {A} a.
Arguments Raise {A} e.

(** [[f(x) for x in xs]]: the first call that raises ends the comprehension. *)
Fixpoint comprehension {A B : Type} (f : A -> res B) (xs : list A) : res (list B) :=
  match xs with
  | [] => Ok []
  | x :: xs' =>
      match f x with
      | Raise e => Raise e
      | Ok y =>
          match comprehension f xs' with
          | Raise e => Raise e
          | Ok ys => Ok (y :: ys)
          end
      end
  end.

(** ** The pandas fragment *)

Module pd.

(** A [Timestamp] is a calendar day, counted in days. *)
Definition Timestamp := Z.
Definition Index := list Timestamp.

(** A [Series] keeps its labels and values in the order it holds them. *)
Definition Series := list (Timestamp * float).

Definition index (s : Series) : Index := map fst s.

(** The value under label [d]; NaN where the series has no such label
    (what reindexing to a larger index fills in). *)
Definition value_at (s : Series) (d : Timestamp) : float :=
  match find (fun e => fst e =? d) s with
  | Some e => snd e
  | None => nan
  end.

Definition equals (a b : Index) : bool :=
  if list_eq_dec Z.eq_dec a b then true else false.

Fixpoint insert_asc (d : Timestamp) (l : Index) : Index :=
  match l with
  | [] => [d]
  | x :: l' => if d <=? x then d :: l else x :: insert_asc d l'
  end.

Definition sort_values (l : Index) : Index := fold_right insert_asc [] l.

(** [Index.union(other)] with the default [sort=None]: an empty or equal
    operand returns the other one untouched, anything else is the sorted
    union.  Labels are unique within an index (period-end dates). *)
Definition union (a b : Index) : Index :=
  match b, a with
  | [], _ => a
  | _, [] => b
  | _, _ =>
      if equals a b then a
      else sort_values (a ++ filter (fun d => negb (existsb (Z.eqb d) a)) b)
  end.

(** [union_indexes]: the index of a frame built from several series. *)
Definition union_indexes (l : list Index) : Index :=
  match l with
  | [] => []
  | i :: l' => fold_left union l' i
  end.

(** Arithmetic between two series: operands with equal indexes are combined
    position by position, others are first aligned on the union of their
    labels, a label missing on one side giving NaN. *)
Definition binop (f : float -> float -> float) (a b : Series) : Series :=
  if equals (index a) (index b)
  then map (fun e => (fst (fst e), f (snd (fst e)) (snd (snd e)))) (combine a b)
  else map (fun d => (d, f (value_at a d) (value_at b d))) (union (index a) (index b)).

Definition div : Series -> Series -> Series := binop PrimFloat.div.
Definition add : Series -> Series -> Series := binop PrimFloat.add.
Definition sub : Series -> Series -> Series := binop PrimFloat.sub.
Definition mul_scalar (a : Series) (k : float) : Series :=
  map (fun e => (fst e, PrimFloat.mul (snd e) k)) a.

(** [sort_index(ascending=False)]: most recent label first. *)
Fixpoint insert_desc (e : Timestamp * float) (s : Series) : Series :=
  match s with
  | [] => [e]
  | x :: s' => if fst x <=? fst e then e :: s else x :: insert_desc e s'
  end.

Definition sort_index_desc (s : Series) : Series := fold_right insert_desc [] s.

(** [ffill()]: a missing value takes the last value before it that is not
    missing; missing values at the head stay. *)
Fixpoint ffill_from (prev : float) (l : list float) : list float :=
  match l with
  | [] => []
  | x :: l' =>
      let y := if is_nan x then prev else x in
      y :: ffill_from y l'
  end.

Definition ffill (l : list float) : list float := ffill_from nan l.

(** [pct_change()] with its default [fill_method='pad'] (every pandas
    before 3.0): missing values are forward filled first, then each row
    gets the relative change from the row before it, NaN on the first
    row. *)
Fixpoint pct_change_from (prev : float) (l : list float) : list float :=
  match l with
  | [] => []
  | x :: l' => PrimFloat.sub (PrimFloat.div x prev) 1%float :: pct_change_from x l'
  end.

Definition pct_change (l : list float) : list float :=
  match ffill l with
  | [] => []
  | x :: l' => nan :: pct_change_from x l'
  end.

(** A financial statement as the provider returns it: one column per
    period-end date, one row per line item. *)
Record Statement : Type := {
  columns : Index;
  rows : list (string * list float)
}.

Definition size (df : Statement) : nat :=
  (List.length (rows df) * List.length (columns df))%nat.

(** [df.iloc[:, :-1]]: every column but the last one, by position. *)
Definition iloc_but_last (df : Statement) : Statement :=
  {| columns := removelast (columns df);
     rows := map (fun r => (fst r, removelast (snd r))) (rows df) |}.

(** [df.loc[label]]: the row of a line item, as a series over the columns. *)
Definition loc (df : Statement) (label : string) : res Series :=
  match find (fun r => String.eqb (fst r) label) (rows df) with
  | Some r => Ok (combine (columns df) (snd r))
  | None => Raise (KeyError label)
  end.

End pd.

(** ** The statement and price provider *)

Module yf.

(** What [yf.Ticker(ticker)] gives access to.  [close] is the table of daily
    closing prices, one row per trading day, in ascending date order. *)
Record Ticker : Type := {
  balance_sheet : pd.Statement;
  incomestmt : pd.Statement;
  cashflow : pd.Statement;
  quarterly_balance_sheet : pd.Statement;
  quarterly_income_stmt : pd.Statement;
  quarterly_cashflow : pd.Statement;
  close : pd.Series
}.

(** [history(start, end)["Close"]]: the trading days from [start] on and
    before [end_]. *)
Definition between (start end_ : pd.Timestamp) (r : pd.Timestamp * float) : bool :=
  (start <=? fst r) && (fst r <? end_).

Definition history (info : Ticker) (start end_ : pd.Timestamp) : pd.Series :=
  filter (between start end_) (close info).

End yf.

Definition Provider := string -> yf.Ticker.

(** ** Python local variables

    A method's local names live in an environment; a name that no executed
    statement assigned is unbound, and reading it raises.  Statements run in
    [M]: an exception leaves the bindings made before it in place. *)

Inductive pyval : Type :=
| PNone
| PSeries (s : pd.Series)
| PBool (b : bool).

Definition locals := list (string * pyval).
Definition M (A : Type) : Type := locals -> res A * locals.

Definition ret {A : Type} (a : A) : M A := fun l => (Ok a, l).
Definition raise {A : Type} (e : exn) : M A := fun l => (Raise e, l).
Definition bind {A B : Type} (m : M A) (k : A -> M B) : M B :=
  fun l =>
    match m l with
    | (Ok a, l') => k a l'
    | (Raise e, l') => (Raise e, l')
    end.
Definition lift {A : Type} (r : res A) : M A := fun l => (r, l).

Notation "x <- m ;; k" := (bind m (fun x => k))
  (at level 61, m at next level, right associativity).
Notation "m ;; k" := (bind m (fun _ => k))
  (at level 61, right associativity).

Definition lookup (x : string) (l : locals) : option pyval :=
  match find (fun b => String.eqb (fst b) x) l with
  | Some b => Some (snd b)
  | None => None
  end.

Definition assign (x : string) (v : pyval) : M unit := fun l => (Ok tt, (x, v) :: l).

Definition name (x : string) : M pyval :=
  fun l =>
    match lookup x l with
    | Some v => (Ok v, l)
    | None => (Raise (UnboundLocalError x), l)
    end.

(** A name used as an operand of series arithmetic. *)
Definition operand (x : string) : M pd.Series :=
  v <- name x ;;
  match v with
  | PSeries s => ret s
  | _ => raise TypeError
  end.

(** [x.index] *)
Definition index_of (x : string) : M pd.Index :=
  v <- name x ;;
  match v with
  | PSeries s => ret (pd.index s)
  | _ => raise (AttributeError "index")
  end.

(** [try: body  except Exception: handler] *)
Definition try_except (body handler : M unit) : M unit :=
  fun l =>
    match body l with
    | (Ok _, l') => (Ok tt, l')
    | (Raise _, l') => handler l'
    end.

(** ** The program *)

(** [get_historical_price], lines 13-16. *)
Definition get_historical_price (p : Provider) (ticker : string) (start : pd.Timestamp)
  : res float :=
  let end_ := start + 4 in
  let price := yf.history (p ticker) start end_ in
  match price with
  | [] => Raise IndexError
  | r :: _ => Ok (snd r)
  end.

Definition unavailable (x : string) : M unit :=
  assign x PNone ;; assign "incomplete" (PBool true).

(** Lines 39-50. *)
Definition eps_block (edo bg : pd.Statement) : M unit :=
  try_except
    (income <- lift (pd.loc edo "Net Income Common Stockholders") ;;
     assign "income" (PSeries income) ;;
     n_shares <- lift (pd.loc bg "Ordinary Shares Number") ;;
     assign "n_shares" (PSeries n_shares) ;;
     assign "eps" (PSeries (pd.sort_index_desc (pd.div income n_shares))))
    (unavailable "eps").

(** Lines 52-58. *)
Definition shares_block (bg : pd.Statement) : M unit :=
  try_except
    (shares <- lift (pd.loc bg "Ordinary Shares Number") ;;
     assign "shares" (PSeries shares))
    (unavailable "shares").

(** Lines 61-73.  The handler binds [per] only: [prices] stays unbound when
    the body raises before its assignment. *)
Definition per_block (p : Provider) (ticker : string) : M unit :=
  try_except
    (idx <- index_of "eps" ;;
     quotes <- lift (comprehension (get_historical_price p ticker) idx) ;;
     assign "prices" (PSeries (pd.sort_index_desc (combine idx quotes))) ;;
     prices <- operand "prices" ;;
     eps <- operand "eps" ;;
     assign "per" (PSeries (pd.sort_index_desc (pd.div prices eps))))
    (unavailable "per").

(** Lines 75-83. *)
Definition ebitda_block (edo : pd.Statement) : M unit :=
  try_except
    (ebitda <- lift (pd.loc edo "EBITDA") ;;
     assign "ebitda" (PSeries (pd.sort_index_desc ebitda)))
    (unavailable "ebitda").

(** Lines 84-92. *)
Definition pbv_block (bg : pd.Statement) : M unit :=
  try_except
    (equity <- lift (pd.loc bg "Common Stock Equity") ;;
     n_shares <- operand "n_shares" ;;
     assign "bvps" (PSeries (pd.div equity n_shares)) ;;
     prices <- operand "prices" ;;
     bvps <- operand "bvps" ;;
     assign "pbv" (PSeries (pd.sort_index_desc (pd.div prices bvps))))
    (unavailable "pbv").

(** Lines 94-104. *)
Definition solvency_block (bg : pd.Statement) : M unit :=
  try_except
    (assets <- lift (pd.loc bg "Total Assets") ;;
     assign "assets" (PSeries assets) ;;
     liabilities <- lift (pd.loc bg "Current Liabilities") ;;
     assign "liabilities" (PSeries liabilities) ;;
     assign "solvency" (PSeries (pd.sort_index_desc (pd.div assets liabilities))))
    (unavailable "solvency").

(** Lines 106-115. *)
Definition roe_block (bg : pd.Statement) : M unit :=
  try_except
    (equity <- lift (pd.loc bg "Common Stock Equity") ;;
     assign "equity" (PSeries equity) ;;
     income <- operand "income" ;;
     assign "roe" (PSeries (pd.sort_index_desc
                              (pd.mul_scalar (pd.div income equity) 100%float))))
    (unavailable "roe").

(** Lines 116-127. *)
Definition fcf_block (bg cashflow : pd.Statement) : M unit :=
  try_except
    (cfo <- lift (pd.loc cashflow "Operating Cash Flow") ;;
     assign "cfo" (PSeries cfo) ;;
     non_cash_charges <- lift (pd.loc cashflow "Depreciation And Amortization") ;;
     assign "non_cash_charges" (PSeries non_cash_charges) ;;
     assets <- lift (pd.loc bg "Total Assets") ;;
     liabilities <- lift (pd.loc bg "Current Liabilities") ;;
     let inc_working_capital := pd.sub assets liabilities in
     assign "inc_working_capital" (PSeries inc_working_capital) ;;
     assign "fcf" (PSeries (pd.sort_index_desc
                              (pd.sub (pd.add cfo non_cash_charges) inc_working_capital))))
    (unavailable "fcf").

(** The keys of the returned dict, in the order of lines 129-140. *)
Definition result_keys : list string :=
  ["eps"; "per"; "ebitda"; "pbv"; "solvency"; "roe"; "fcf"; "prices"; "shares"; "incomplete"].

Definition dict := list (string * pyval).

(** The dict display of lines 129-140: every value is a name read in turn. *)
Fixpoint return_dict (keys : list string) : M dict :=
  match keys with
  | [] => ret []
  | k :: keys' =>
      v <- name k ;;
      d <- return_dict keys' ;;
      ret ((k, v) :: d)
  end.

(** Lines 37-127: the eight [try] statements in turn. *)
Definition ratios (p : Provider) (ticker : string) (bg edo cashflow : pd.Statement)
  : M unit :=
  assign "incomplete" (PBool false) ;;
  eps_block edo bg ;;
  shares_block bg ;;
  per_block p ticker ;;
  ebitda_block edo ;;
  pbv_block bg ;;
  solvency_block bg ;;
  roe_block bg ;;
  fcf_block bg cashflow.

(** Lines 37-140. *)
Definition analysis_body (p : Provider) (ticker : string) (bg edo cashflow : pd.Statement)
  : M dict :=
  ratios p ticker bg edo cashflow ;;
  return_dict result_keys.

(** The three statements of lines 24-31. *)
Definition statements (info : yf.Ticker) (use_quarterly : bool)
  : pd.Statement * pd.Statement * pd.Statement :=
  if use_quarterly
  then (pd.iloc_but_last (yf.quarterly_balance_sheet info),
        pd.iloc_but_last (yf.quarterly_income_stmt info),
        yf.quarterly_cashflow info)
  else (pd.iloc_but_last (yf.balance_sheet info),
        pd.iloc_but_last (yf.incomestmt info),
        yf.cashflow info).

(** Lines 33-35. *)
Definition no_data (bg edo cashflow : pd.Statement) : bool :=
  (pd.size bg =? 0)%nat || (pd.size edo =? 0)%nat || (pd.size cashflow =? 0)%nat.

(** [fundamental_analysis], lines 18-140: [Ok None] is the early [return
    None], [Raise] an exception that leaves the method. *)
Definition fundamental_analysis (p : Provider) (ticker : string) (use_quarterly : bool)
  : res (option dict) :=
  let info := p ticker in
  let '(bg, edo, cashflow) := statements info use_quarterly in
  if no_data bg edo cashflow then Ok None
  else
    match fst (analysis_body p ticker bg edo cashflow []) with
    | Ok d => Ok (Some d)
    | Raise e => Raise e
    end.

(** ** Result frames *)

(** One row of a result frame.  The row's index label is kept in [date];
    the frame's column list says which fields are columns of the frame. *)
Record RatioRecord : Type := {
  eps : float;
  per : float;
  ebitda : float;
  pbv : float;
  solvency : float;
  roe : float;
  fcf : float;
  prices : float;
  shares : float;
  incomplete : bool;
  ticker : string;
  returns : float;
  date : pd.Timestamp
}.

Record Frame : Type := {
  fcolumns : list string;
  frows : list RatioRecord
}.

(** [pd.DataFrame()] *)
Definition empty_frame : Frame := {| fcolumns := []; frows := [] |}.

Definition has_column (c : string) (f : Frame) : bool :=
  existsb (String.eqb c) (fcolumns f).

(** The cell of column [k] at label [d]: a series gives its value there (NaN
    off its index), [None] gives a missing cell. *)
Definition cell (d : dict) (k : string) (t : pd.Timestamp) : float :=
  match lookup k d with
  | Some (PSeries s) => pd.value_at s t
  | _ => nan
  end.

Definition flag (d : dict) (k : string) : bool :=
  match lookup k d with
  | Some (PBool b) => b
  | _ => false
  end.

Definition row_at (d : dict) (t : pd.Timestamp) : RatioRecord :=
  {| eps := cell d "eps" t;
     per := cell d "per" t;
     ebitda := cell d "ebitda" t;
     pbv := cell d "pbv" t;
     solvency := cell d "solvency" t;
     roe := cell d "roe" t;
     fcf := cell d "fcf" t;
     prices := cell d "prices" t;
     shares := cell d "shares" t;
     incomplete := flag d "incomplete";
     ticker := "";
     returns := nan;
     date := t |}.

Fixpoint series_indexes (d : dict) : list pd.Index :=
  match d with
  | [] => []
  | (_, PSeries s) :: d' => pd.index s :: series_indexes d'
  | _ :: d' => series_indexes d'
  end.

(** [pd.DataFrame(result)], line 161: [None] gives the empty frame; a dict
    gives one column per key and one row per label of the union of its
    series' indexes, scalars being repeated on every row. *)
Definition DataFrame (result : option dict) : res Frame :=
  match result with
  | None => Ok empty_frame
  | Some d =>
      match series_indexes d with
      | [] => Raise ValueError
      | idx => Ok {| fcolumns := map fst d;
                     frows := map (row_at d) (pd.union_indexes idx) |}
      end
  end.

Definition add_column (c : string) (cols : list string) : list string :=
  if existsb (String.eqb c) cols then cols else cols ++ [c].

Definition set_ticker (t : string) (r : RatioRecord) : RatioRecord :=
  {| eps := eps r; per := per r; ebitda := ebitda r; pbv := pbv r;
     solvency := solvency r; roe := roe r; fcf := fcf r; prices := prices r;
     shares := shares r; incomplete := incomplete r; ticker := t;
     returns := returns r; date := date r |}.

Definition set_returns (r : RatioRecord) (x : float) : RatioRecord :=
  {| eps := eps r; per := per r; ebitda := ebitda r; pbv := pbv r;
     solvency := solvency r; roe := roe r; fcf := fcf r; prices := prices r;
     shares := shares r; incomplete := incomplete r; ticker := ticker r;
     returns := x; date := date r |}.

(** Whether the cell of column [c] is missing in row [r]. *)
Definition isna (c : string) (r : RatioRecord) : bool :=
  if String.eqb c "eps" then is_nan (eps r)
  else if String.eqb c "per" then is_nan (per r)
  else if String.eqb c "ebitda" then is_nan (ebitda r)
  else if String.eqb c "pbv" then is_nan (pbv r)
  else if String.eqb c "solvency" then is_nan (solvency r)
  else if String.eqb c "roe" then is_nan (roe r)
  else if String.eqb c "fcf" then is_nan (fcf r)
  else if String.eqb c "prices" then is_nan (prices r)
  else if String.eqb c "shares" then is_nan (shares r)
  else if String.eqb c "returns" then is_nan (returns r)
  else false.

(** [dropna(how='all', subset=...)]: a row goes when every cell of the
    subset is missing. *)
Definition dropna_all (subset : list string) (f : Frame) : Frame :=
  {| fcolumns := fcolumns f;
     frows := filter (fun r => negb (forallb (fun c => isna c r) subset)) (frows f) |}.

(** The subset of line 165: every column but [ticker] and [incomplete]. *)
Definition data_columns (f : Frame) : list string :=
  filter (fun c => negb (String.eqb c "ticker" || String.eqb c "incomplete")) (fcolumns f).

(** [pd.concat([a, b])] *)
Definition concat (a b : Frame) : Frame :=
  {| fcolumns := fcolumns a ++ filter (fun c => negb (has_column c a)) (fcolumns b);
     frows := frows a ++ frows b |}.

(** Lines 160-163: the ticker's frame with its [ticker] and [returns]
    columns, or the exception that ends the iteration. *)
Definition analysed (p : Provider) (t : string) : res Frame :=
  match fundamental_analysis p t false with
  | Raise e => Raise e
  | Ok result =>
      match DataFrame result with
      | Raise e => Raise e
      | Ok result =>
          let result :=
            {| fcolumns := add_column "ticker" (fcolumns result);
               frows := map (set_ticker t) (frows result) |} in
          if has_column "prices" result then
            Ok {| fcolumns := add_column "returns" (fcolumns result);
                  frows := map (fun rx => set_returns (fst rx) (snd rx))
                             (combine (frows result)
                                      (pd.pct_change (map prices (frows result)))) |}
          else Raise (KeyError "prices")
      end
  end.

(** Lines 165-166. *)
Definition drop_and_date (result : Frame) : Frame :=
  let result := dropna_all (data_columns result) result in
  {| fcolumns := add_column "date" (fcolumns result); frows := frows result |}.

(** Lines 160-166: the frame one ticker contributes to the batch. *)
Definition ticker_frame (p : Provider) (t : string) : res Frame :=
  match analysed p t with
  | Raise e => Raise e
  | Ok result => Ok (drop_and_date result)
  end.

(** ** Output files *)

Inductive csv_line (A : Type) : Type :=
| Header (cols : list string)
| Data (a : A).
Arguments Header {A} cols.
Arguments Data {A} a.

(** The two destinations, and the storage faults to come: each write takes
    the head of [faults], and fails when it is [true]. *)
Record Disk : Type := {
  results_csv : list (csv_line RatioRecord);
  incomplete_csv : list (csv_line string);
  faults : list bool
}.

Inductive mode : Type := mode_w | mode_a.

Definition written {A : Type} (m : mode) (old new : list (csv_line A)) : list (csv_line A) :=
  match m with
  | mode_w => new
  | mode_a => old ++ new
  end.

(** [frame.to_csv(results_path, mode=m, index=False)]: the header row, then
    one row per record.  A write that fails is taken to fail before
    anything reaches the file; a write that fails partway is not modelled. *)
Definition to_csv_results (f : Frame) (m : mode) (d : Disk) : res unit * Disk :=
  match faults d with
  | true :: fs =>
      (Raise OSError,
       {| results_csv := results_csv d; incomplete_csv := incomplete_csv d; faults := fs |})
  | fs =>
      (Ok tt,
       {| results_csv := written m (results_csv d) (Header (fcolumns f) :: map Data (frows f));
          incomplete_csv := incomplete_csv d;
          faults := tl fs |})
  end.

(** The same for the incomplete-tickers file, given the frame's columns and
    its column of tickers. *)
Definition to_csv_incomplete (cols : list string) (tickers : list string) (m : mode)
    (d : Disk) : res unit * Disk :=
  match faults d with
  | true :: fs =>
      (Raise OSError,
       {| results_csv := results_csv d; incomplete_csv := incomplete_csv d; faults := fs |})
  | fs =>
      (Ok tt,
       {| results_csv := results_csv d;
          incomplete_csv := written m (incomplete_csv d) (Header cols :: map Data tickers);
          faults := tl fs |})
  end.

(** ** [dataset_generator] *)

(** The variables of the loop of lines 157-192. *)
Record Loop : Type := {
  results : Frame;
  batch : Frame;
  incomplete_list : list string;
  disk : Disk
}.

(** One iteration, lines 158-192, for the ticker at position [i] of a list
    of [n]: an exception anywhere in the body ends the iteration with the
    assignments made so far. *)
Definition iteration (p : Provider) (n i : nat) (t : string) (st : Loop) : Loop :=
  match ticker_frame p t with
  | Raise _ => st
  | Ok result =>
      let incomplete_list :=
        if existsb incomplete (frows result)
        then incomplete_list st ++ [t]
        else incomplete_list st in
      let results := concat (results st) result in
      let batch := concat (batch st) result in
      let results := concat results result in
      if (((i + 1) mod 20 =? 0) || (i + 1 =? n))%nat then
        match to_csv_results batch mode_a (disk st) with
        | (Raise _, d) =>
            {| results := results; batch := batch;
               incomplete_list := incomplete_list; disk := d |}
        | (Ok _, d) =>
            let batch := empty_frame in
            match incomplete_list with
            | [] =>
                {| results := results; batch := batch;
                   incomplete_list := incomplete_list; disk := d |}
            | _ :: _ =>
                match to_csv_incomplete ["ticker"] incomplete_list mode_a d with
                | (Raise _, d') =>
                    {| results := results; batch := batch;
                       incomplete_list := incomplete_list; disk := d' |}
                | (Ok _, d') =>
                    {| results := results; batch := batch;
                       incomplete_list := []; disk := d' |}
                end
            end
        end
      else
        {| results := results; batch := batch;
           incomplete_list := incomplete_list; disk := disk st |}
  end.

(** [for i, ticker in enumerate(tickers)], from position [i] on. *)
Fixpoint loop (p : Provider) (n i : nat) (tickers : list string) (st : Loop) : Loop :=
  match tickers with
  | [] => st
  | t :: tickers' => loop p n (S i) tickers' (iteration p n i t st)
  end.

Inductive outcome : Type :=
| Aborted (e : exn) (d : Disk)
| Returned (results : Frame) (d : Disk).

(** [dataset_generator], lines 142-196.  The two writes of lines 148 and
    152 stand outside the loop's [try]: their failure leaves the method. *)
Definition dataset_generator (p : Provider) (tickers : list string) (d : Disk) : outcome :=
  match to_csv_results empty_frame mode_w d with
  | (Raise e, d) => Aborted e d
  | (Ok _, d) =>
      match to_csv_incomplete [] [] mode_w d with
      | (Raise e, d) => Aborted e d
      | (Ok _, d) =>
          let st := loop p (List.length tickers) 0 tickers
                      {| results := empty_frame; batch := empty_frame;
                         incomplete_list := []; disk := d |} in
          Returned (results st) (disk st)
      end
  end.

(** ** Observations on a run *)

(** The records a ticker contributes to the batch. *)
Definition produced (p : Provider) (t : string) : list RatioRecord :=
  match ticker_frame p t with
  | Ok f => frows f
  | Raise _ => []
  end.

(** Whether an iteration appended to the results file. *)
Definition flushed (st st' : Loop) : bool :=
  (List.length (results_csv (disk st)) <? List.length (results_csv (disk st')))%nat.

(** The positions, counted from 1, after which the loop flushed. *)
Fixpoint flushes (p : Provider) (n i : nat) (tickers : list string) (st : Loop) : list nat :=
  match tickers with
  | [] => []
  | t :: tickers' =>
      let st' := iteration p n i t st in
      (if flushed st st' then [S i] else []) ++ flushes p n (S i) tickers' st'
  end.

(** The state the loop starts from once both destinations are reset. *)
Definition start (d : Disk) : Loop :=
  {| results := empty_frame; batch := empty_frame; incomplete_list := [];
     disk := {| results_csv := [Header []]; incomplete_csv := [Header []];
                faults := tl (tl (faults d)) |} |}.

Definition flush_positions (p : Provider) (tickers : list string) (d : Disk) : list nat :=
  flushes p (List.length tickers) 0 tickers (start d).

(** ** Sample data *)

Module Sample.

Definition balance_AAA : pd.Statement :=
  {| pd.columns := [19722; 19357; 18992; 18627];
     pd.rows :=
       [("Ordinary Shares Number", [100; 100; 80; 80]%float);
        ("Common Stock Equity", [500; 400; 320; 300]%float);
        ("Total Assets", [900; 800; 700; 650]%float);
        ("Current Liabilities", [300; 250; 200; 200]%float)] |}.

Definition income_AAA : pd.Statement :=
  {| pd.columns := [19722; 19357; 18992; 18627];
     pd.rows :=
       [("Net Income Common Stockholders", [50; 40; 24; 16]%float);
        ("EBITDA", [90; 75; 60; 50]%float)] |}.

Definition cashflow_AAA : pd.Statement :=
  {| pd.columns := [19722; 19357; 18992; 18627];
     pd.rows :=
       [("Operating Cash Flow", [70; 60; 45; 30]%float);
        ("Depreciation And Amortization", [20; 15; 12; 10]%float)] |}.

Definition no_statement : pd.Statement := {| pd.columns := []; pd.rows := [] |}.

(** Closing prices around the period ends: 2021-12-31 is a trading day, the
    2022 and 2023 year ends fall on a weekend followed by a holiday. *)
Definition close_AAA : pd.Series :=
  [(18627, 10%float); (18631, 11%float); (18992, 12%float); (18995, 13%float);
   (19360, 15%float); (19361, 16%float); (19724, 18%float); (19725, 19%float)].

Definition without (label : string) (df : pd.Statement) : pd.Statement :=
  {| pd.columns := pd.columns df;
     pd.rows := filter (fun r => negb (String.eqb (fst r) label)) (pd.rows df) |}.


Definition annual (bg edo cf : pd.Statement) (quotes : pd.Series) : yf.Ticker :=
  {| yf.balance_sheet := bg; yf.incomestmt := edo; yf.cashflow := cf;
     yf.quarterly_balance_sheet := no_statement;
     yf.quarterly_income_stmt := no_statement;
     yf.quarterly_cashflow := no_statement;
     yf.close := quotes |}.

Definition AAA : yf.Ticker := annual balance_AAA income_AAA cashflow_AAA close_AAA.

(** [BBB] has no [Ordinary Shares Number] line, [CCC] an empty balance
    sheet, [DDD] no [EBITDA] line. *)
Definition BBB : yf.Ticker :=
  annual (without "Ordinary Shares Number" balance_AAA) income_AAA cashflow_AAA close_AAA.
Definition CCC : yf.Ticker := annual no_statement income_AAA cashflow_AAA close_AAA.
Definition DDD : yf.Ticker :=
  annual balance_AAA (without "EBITDA" income_AAA) cashflow_AAA close_AAA.

Definition market : Provider :=
  fun t =>
    if String.eqb t "BBB" then BBB
    else if String.eqb t "CCC" then CCC
    else if String.eqb t "DDD" then DDD
    else AAA.


Definition blank_disk : Disk := {| results_csv := []; incomplete_csv := []; faults := [] |}.

(** A disk whose third write, the first flush, fails. *)
Definition failing_disk : Disk :=
  {| results_csv := []; incomplete_csv := []; faults := [false; false; true] |}.

(** Twenty-one tickers with complete statements. *)
Definition tickers21 : list string :=
  ["T01"; "T02"; "T03"; "T04"; "T05"; "T06"; "T07"; "T08"; "T09"; "T10";
   "T11"; "T12"; "T13"; "T14"; "T15"; "T16"; "T17"; "T18"; "T19"; "T20"; "T21"].

(** Forty-five tickers with complete statements. *)
Definition tickers45 : list string :=
  ["T01"; "T02"; "T03"; "T04"; "T05"; "T06"; "T07"; "T08"; "T09"; "T10";
   "T11"; "T12"; "T13"; "T14"; "T15"; "T16"; "T17"; "T18"; "T19"; "T20";
   "T21"; "T22"; "T23"; "T24"; "T25"; "T26"; "T27"; "T28"; "T29"; "T30";
   "T31"; "T32"; "T33"; "T34"; "T35"; "T36"; "T37"; "T38"; "T39"; "T40";
   "T41"; "T42"; "T43"; "T44"; "T45"].

(** The list of twenty-one with [CCC] in the twentieth place. *)
Definition tickers21_CCC : list string :=
  ["T01"; "T02"; "T03"; "T04"; "T05"; "T06"; "T07"; "T08"; "T09"; "T10";
   "T11"; "T12"; "T13"; "T14"; "T15"; "T16"; "T17"; "T18"; "T19"; "CCC"; "T21"].

End Sample.

(** ** Notions used in the statements *)

(** A statement without the line item [label]. *)
Definition missing (df : pd.Statement) (label : string) : Prop :=
  match pd.loc df label with
  | Ok _ => False
  | Raise _ => True
  end.

(** A series in canonical order: most recent period first. *)
Definition most_recent_first (s : pd.Series) : Prop := Sorted Z.ge (pd.index s).





(** The cells of a record are those of the dict's series at the record's
    own period. *)
Definition same_period (d : dict) (r : RatioRecord) : Prop :=
  eps r = cell d "eps" (date r) /\
  per r = cell d "per" (date r) /\
  ebitda r = cell d "ebitda" (date r) /\
  pbv r = cell d "pbv" (date r) /\
  solvency r = cell d "solvency" (date r) /\
  roe r = cell d "roe" (date r) /\
  fcf r = cell d "fcf" (date r) /\
  prices r = cell d "prices" (date r) /\
  shares r = cell d "shares" (date r).

(** The columns of a ticker's frame once lines 162, 163 and 166 have run. *)
Definition result_columns : list string := result_keys ++ ["ticker"; "returns"; "date"].

(** The subset [dropna] looks at on line 165. *)
Definition value_columns : list string :=
  ["eps"; "per"; "ebitda"; "pbv"; "solvency"; "roe"; "fcf"; "prices"; "shares"; "returns"].

(** At least one value of the record is not missing. *)
Definition has_data (r : RatioRecord) : bool :=
  negb (forallb (fun c => isna c r) value_columns).

(** A header row that names columns (the header of an empty frame is an
    empty line). *)
Definition is_column_header {A : Type} (x : csv_line A) : bool :=
  match x with
  | Header (_ :: _) => true
  | _ => false
  end.

Definition header_rows {A : Type} (l : list (csv_line A)) : list (csv_line A) :=
  filter is_column_header l.

(** The records a results file holds. *)
Definition records_of (l : list (csv_line RatioRecord)) : list RatioRecord :=
  flat_map (fun x => match x with Data r => [r] | Header _ => [] end) l.

(** One of the three annual statements fetched for [t] is entirely empty. *)
Definition an_empty_statement (p : Provider) (t : string) : Prop :=
  no_data (fst (fst (statements (p t) false)))
          (snd (fst (statements (p t) false)))
          (snd (statements (p t) false)) = true.

(** Neither of the two writes that reset the destinations fails. *)
Definition resets_succeed (d : Disk) : bool :=
  negb (hd false (faults d)) && negb (hd false (tl (faults d))).

(** ** The iteration as a step relation *)

(** The condition of line 178. *)
Definition flush_due (n i : nat) : bool := (((i + 1) mod 20 =? 0) || (i + 1 =? n))%nat.

(** The pending incomplete-list after lines 168-169. *)
Definition noted (t : string) (f : Frame) (st : Loop) : list string :=
  if existsb incomplete (frows f) then incomplete_list st ++ [t] else incomplete_list st.

(** The returned frame after lines 171 and 175. *)
Definition grown (f : Frame) (st : Loop) : Frame := concat (concat (results st) f) f.

(** The ways through one iteration: the ticker's frame raises; it is
    accumulated with no flush due; the flush fails on the results file; it
    succeeds with nothing pending for the incomplete file; the incomplete
    file's write fails; both writes succeed. *)
Inductive step (p : Provider) (n i : nat) (t : string) (st : Loop) : Loop -> Prop :=
| step_skip (e : exn) :
    ticker_frame p t = Raise e ->
    step p n i t st st
| step_keep (f : Frame) :
    ticker_frame p t = Ok f ->
    flush_due n i = false ->
    step p n i t st
      {| results := grown f st; batch := concat (batch st) f;
         incomplete_list := noted t f st; disk := disk st |}
| step_flush_failed (f : Frame) (e : exn) (d : Disk) :
    ticker_frame p t = Ok f ->
    flush_due n i = true ->
    to_csv_results (concat (batch st) f) mode_a (disk st) = (Raise e, d) ->
    step p n i t st
      {| results := grown f st; batch := concat (batch st) f;
         incomplete_list := noted t f st; disk := d |}
| step_flush_only (f : Frame) (d : Disk) :
    ticker_frame p t = Ok f ->
    flush_due n i = true ->
    to_csv_results (concat (batch st) f) mode_a (disk st) = (Ok tt, d) ->
    noted t f st = [] ->
    step p n i t st
      {| results := grown f st; batch := empty_frame;
         incomplete_list := []; disk := d |}
| step_log_failed (f : Frame) (e : exn) (d d' : Disk) :
    ticker_frame p t = Ok f ->
    flush_due n i = true ->
    to_csv_results (concat (batch st) f) mode_a (disk st) = (Ok tt, d) ->
    noted t f st <> [] ->
    to_csv_incomplete ["ticker"] (noted t f st) mode_a d = (Raise e, d') ->
    step p n i t st
      {| results := grown f st; batch := empty_frame;
         incomplete_list := noted t f st; disk := d' |}
| step_flush_and_log (f : Frame) (d d' : Disk) :
    ticker_frame p t = Ok f ->
    flush_due n i = true ->
    to_csv_results (concat (batch st) f) mode_a (disk st) = (Ok tt, d) ->
    noted t f st <> [] ->
    to_csv_incomplete ["ticker"] (noted t f st) mode_a d = (Ok tt, d') ->
    step p n i t st
      {| results := grown f st; batch := empty_frame;
         incomplete_list := []; disk := d' |}.

(** A property of records holds of the accumulators and of the results
    file. *)
Definition all_records (Q : RatioRecord -> Prop) (st : Loop) : Prop :=
  Forall Q (frows (results st)) /\
  Forall Q (frows (batch st)) /\
  Forall Q (records_of (results_csv (disk st))).

(** [t] is neither pending for the incomplete file nor written to it. *)
Definition unlogged (t : string) (st : Loop) : Prop :=
  ~ In t (incomplete_list st) /\ ~ In (Data t) (incomplete_csv (disk st)).

(** The batch is the empty frame or has the thirteen result columns. *)
Definition batch_columns_known (st : Loop) : Prop :=
  fcolumns (batch st) = [] \/ fcolumns (batch st) = result_columns.

(** What an iteration does to the results file: nothing, or one header
    row naming the result columns followed by records. *)
Definition appends_batch (st st' : Loop) : Prop :=
  (results_csv (disk st') = results_csv (disk st) /\ flushed st st' = false) \/
  (exists rows,
      results_csv (disk st') =
        results_csv (disk st) ++ Header result_columns :: map Data rows /\
      flushed st st' = true).

(** No write to come fails. *)
Definition fault_free (d : Disk) : Prop := Forall (fun b => b = false) (faults d).

(** The positions of a list of [n] tickers after which a flush is due:
    every twentieth and the last. *)
Definition due_positions (n : nat) : list nat :=
  filter (fun k => ((k mod 20 =? 0) || (k =? n))%nat) (seq 1 n).

(** ** Notions used in the further statements *)

(** The eight line items the ratios read. *)
Record Lines : Type := {
  net_income : pd.Series;
  ordinary_shares : pd.Series;
  ebitda_line : pd.Series;
  common_equity : pd.Series;
  total_assets : pd.Series;
  current_liabilities : pd.Series;
  operating_cash_flow : pd.Series;
  depreciation : pd.Series
}.

(** The three statements have the eight lines, with these series. *)
Definition has_lines (bg edo cashflow : pd.Statement) (L : Lines) : Prop :=
  pd.loc edo "Net Income Common Stockholders" = Ok (net_income L) /\
  pd.loc bg "Ordinary Shares Number" = Ok (ordinary_shares L) /\
  pd.loc edo "EBITDA" = Ok (ebitda_line L) /\
  pd.loc bg "Common Stock Equity" = Ok (common_equity L) /\
  pd.loc bg "Total Assets" = Ok (total_assets L) /\
  pd.loc bg "Current Liabilities" = Ok (current_liabilities L) /\
  pd.loc cashflow "Operating Cash Flow" = Ok (operating_cash_flow L) /\
  pd.loc cashflow "Depreciation And Amortization" = Ok (depreciation L).

(** The series the method binds to [eps] (lines 44-45) and to [prices]
    (lines 62-63), given the quotes of the EPS periods. *)
Definition eps_series (income n_shares : pd.Series) : pd.Series :=
  pd.sort_index_desc (pd.div income n_shares).

Definition price_series (income n_shares : pd.Series) (quotes : list float) : pd.Series :=
  pd.sort_index_desc (combine (pd.index (eps_series income n_shares)) quotes).

(** The dict of a ticker with all eight lines and a quote at every EPS
    period. *)
Definition complete_dict (L : Lines) (quotes : list float) : dict :=
  let E := eps_series (net_income L) (ordinary_shares L) in
  let P := price_series (net_income L) (ordinary_shares L) quotes in
  [("eps", PSeries E);
   ("per", PSeries (pd.sort_index_desc (pd.div P E)));
   ("ebitda", PSeries (pd.sort_index_desc (ebitda_line L)));
   ("pbv", PSeries (pd.sort_index_desc
                      (pd.div P (pd.div (common_equity L) (ordinary_shares L)))));
   ("solvency", PSeries (pd.sort_index_desc
                           (pd.div (total_assets L) (current_liabilities L))));
   ("roe", PSeries (pd.sort_index_desc
                      (pd.mul_scalar (pd.div (net_income L) (common_equity L)) 100%float)));
   ("fcf", PSeries (pd.sort_index_desc
                      (pd.sub (pd.add (operating_cash_flow L) (depreciation L))
                              (pd.sub (total_assets L) (current_liabilities L)))));
   ("prices", PSeries P);
   ("shares", PSeries (ordinary_shares L));
   ("incomplete", PBool false)].

(** The formula table, at the record's own period; a period a line does
    not cover counts as NaN. *)
Definition follows_formulas (L : Lines) (r : RatioRecord) : Prop :=
  incomplete r = false /\
  eps r = PrimFloat.div (pd.value_at (net_income L) (date r))
                        (pd.value_at (ordinary_shares L) (date r)) /\
  per r = PrimFloat.div (prices r) (eps r) /\
  ebitda r = pd.value_at (ebitda_line L) (date r) /\
  pbv r = PrimFloat.div (prices r)
            (PrimFloat.div (pd.value_at (common_equity L) (date r))
                           (pd.value_at (ordinary_shares L) (date r))) /\
  solvency r = PrimFloat.div (pd.value_at (total_assets L) (date r))
                             (pd.value_at (current_liabilities L) (date r)) /\
  roe r = PrimFloat.mul
            (PrimFloat.div (pd.value_at (net_income L) (date r))
                           (pd.value_at (common_equity L) (date r)))
            100%float /\
  fcf r = PrimFloat.sub
            (PrimFloat.add (pd.value_at (operating_cash_flow L) (date r))
                           (pd.value_at (depreciation L) (date r)))
            (PrimFloat.sub (pd.value_at (total_assets L) (date r))
                           (pd.value_at (current_liabilities L) (date r))) /\
  shares r = pd.value_at (ordinary_shares L) (date r).

(** The tickers an incomplete file lists. *)
Definition logged (l : list (csv_line string)) : list string :=
  flat_map (fun x => match x with Data t => [t] | Header _ => [] end) l.

(** The ticker contributes a record flagged incomplete (line 168). *)
Definition flagged (p : Provider) (t : string) : bool :=
  existsb incomplete (produced p t).

(** The lines of [AAA], all but the last column. *)
Definition lines_AAA : Lines :=
  {| net_income := [(19722, 50%float); (19357, 40%float); (18992, 24%float)];
     ordinary_shares := [(19722, 100%float); (19357, 100%float); (18992, 80%float)];
     ebitda_line := [(19722, 90%float); (19357, 75%float); (18992, 60%float)];
     common_equity := [(19722, 500%float); (19357, 400%float); (18992, 320%float)];
     total_assets := [(19722, 900%float); (19357, 800%float); (18992, 700%float)];
     current_liabilities := [(19722, 300%float); (19357, 250%float); (18992, 200%float)];
     operating_cash_flow :=
       [(19722, 70%float); (19357, 60%float); (18992, 45%float); (18627, 30%float)];
     depreciation :=
       [(19722, 20%float); (19357, 15%float); (18992, 12%float); (18627, 10%float)] |}.

(** [EEE] reports a single period: its statements are those of [AAA] cut
    to their first column. *)
Definition first_column (df : pd.Statement) : pd.Statement :=
  {| pd.columns := firstn 1 (pd.columns df);
     pd.rows := map (fun r => (fst r, firstn 1 (snd r))) (pd.rows df) |}.

Definition single_period_market : Provider :=
  fun _ => Sample.annual (first_column Sample.balance_AAA) (first_column Sample.income_AAA)
             (first_column Sample.cashflow_AAA) Sample.close_AAA.

(** [AAA] with no quote around the 2022 year end. *)
Definition gap_market : Provider :=
  fun _ => Sample.annual Sample.balance_AAA Sample.income_AAA Sample.cashflow_AAA
             [(18992, 12%float); (19724, 18%float)].

(** ** The returned dict in closed form *)









(** ** A provider whose fetch may fail *)

(** The statement properties read on lines 25-31 are calls to the
    provider, outside every [try] of the method: [Raise] is their
    exception, [Ok] what they deliver.  (A failure of the provider inside
    [get_historical_price] is caught on line 70 like an empty window.) *)
Definition Fetch := string -> res yf.Ticker.

Definition fundamental_analysis_fetching (fetch : Fetch) (ticker : string)
    (use_quarterly : bool) : res (option dict) :=
  match fetch ticker with
  | Raise e => Raise e
  | Ok info => fundamental_analysis (fun _ => info) ticker use_quarterly
  end.

(** Lines 160-166 over such a provider. *)
Definition ticker_frame_fetching (fetch : Fetch) (t : string) : res Frame :=
  match fetch t with
  | Raise e => Raise e
  | Ok info => ticker_frame (fun _ => info) t
  end.

(** A provider that is down for [ZZZ] and delivers [Sample.market]
    otherwise. *)
Definition flaky_fetch : Fetch :=
  fun t => if String.eqb t "ZZZ" then Raise OSError else Ok (Sample.market t).


(** * Properties *)

(** ** The price resolver *)

Section PriceWindow.

Variables lo hi : Z.

(** The first row a window keeps out of a table in ascending date order is
    the earliest row from [lo] on; a window that keeps nothing holds no row. *)
Lemma first_row_of_window (table : pd.Series) :
  StronglySorted Z.lt (pd.index table) ->
  match filter (yf.between lo hi) table with
  | [] => forall r, In r table -> ~ lo <= fst r < hi
  | r :: _ =>
      In r table /\ lo <= fst r < hi /\
      forall r', In r' table -> lo <= fst r' -> fst r <= fst r'
  end.
Proof.
  induction table as [|x table IH]; intros Hs; simpl.
  - intros r [].
  - inversion Hs as [|? ? Hs' Hx]; subst.
    specialize (IH Hs').
    rewrite Forall_forall in Hx.
    assert (Hlater : forall r', In r' table -> fst x < fst r').
    { intros r' Hr'. apply Hx. unfold pd.index. now apply in_map. }
    unfold yf.between at 1.
    destruct (lo <=? fst x) eqn:Hlo; destruct (fst x <? hi) eqn:Hhi; simpl;
      try (apply Z.leb_le in Hlo); try (apply Z.leb_gt in Hlo);
      try (apply Z.ltb_lt in Hhi); try (apply Z.ltb_ge in Hhi).
    + split; [now left|]. split; [lia|].
      intros r' [<-|Hr'] _; [lia|]. specialize (Hlater r' Hr'). lia.
    + destruct (filter (yf.between lo hi) table) as [|r rest].
      * intros r [<-|Hr]; [lia|]. now apply IH.
      * destruct IH as (Hin & Hw & Hmin).
        specialize (Hlater r Hin). lia.
    + destruct (filter (yf.between lo hi) table) as [|r rest].
      * intros r [<-|Hr]; [lia|]. now apply IH.
      * destruct IH as (Hin & Hw & Hmin).
        split; [now right|]. split; [exact Hw|].
        intros r' [<-|Hr'] Hge; [lia|]. now apply Hmin.
    + destruct (filter (yf.between lo hi) table) as [|r rest].
      * intros r [<-|Hr]; [lia|]. now apply IH.
      * destruct IH as (Hin & Hw & Hmin).
        split; [now right|]. split; [exact Hw|].
        intros r' [<-|Hr'] Hge; [lia|]. now apply Hmin.
Qed.

End PriceWindow.

(** C8: with the provider's closing prices in ascending date order, a
    target date with a trading day among the four calendar days
    [start .. start+3] resolves to the close of the first trading day at or
    after the target; with no trading day there the lookup raises
    [IndexError]. *)
Theorem get_historical_price_first_trading_day :
  forall (p : Provider) (ticker : string) (start : pd.Timestamp),
    Sorted Z.lt (pd.index (yf.close (p ticker))) ->
    ((exists d, In d (pd.index (yf.close (p ticker))) /\ start <= d < start + 4) ->
     exists d c,
       In (d, c) (yf.close (p ticker)) /\ start <= d < start + 4 /\
       (forall d', In d' (pd.index (yf.close (p ticker))) -> start <= d' -> d <= d') /\
       get_historical_price p ticker start = Ok c)
    /\
    ((forall d, In d (pd.index (yf.close (p ticker))) -> ~ start <= d < start + 4) ->
     get_historical_price p ticker start = Raise IndexError).
Proof.
  intros p ticker start Hsorted.
  assert (Hs : StronglySorted Z.lt (pd.index (yf.close (p ticker)))).
  { apply Sorted_StronglySorted; [|exact Hsorted]. intros x y z; apply Z.lt_trans. }
  pose proof (first_row_of_window start (start + 4) _ Hs) as Hfirst.
  unfold get_historical_price, yf.history.
  destruct (filter _ (yf.close (p ticker))) as [|[d c] rest].
  - split.
    + intros (d & Hd & Hw). exfalso.
      unfold pd.index in Hd. apply in_map_iff in Hd as (r & <- & Hr).
      exact (Hfirst r Hr Hw).
    + reflexivity.
  - destruct Hfirst as (Hin & Hw & Hmin). simpl in Hw, Hmin. split.
    + intros _. exists d, c. repeat split; try lia; try assumption.
      intros d' Hd' Hge. unfold pd.index in Hd'.
      apply in_map_iff in Hd' as (r & <- & Hr). now apply Hmin.
    + intros Hnone. exfalso. apply (Hnone d); [|exact Hw].
      unfold pd.index. apply in_map_iff. now exists (d, c).
Qed.

(** The close table of [AAA] at the 2023 year end: Sunday 2023-12-31 and
    the holiday after it have no quote, Tuesday 2024-01-02 has. *)
Lemma get_historical_price_first_trading_day_witness :
  Sorted Z.lt (pd.index (yf.close (Sample.market "AAA"))) /\
  (exists d c,
      In (d, c) (yf.close (Sample.market "AAA")) /\ 19722 <= d < 19722 + 4 /\
      (forall d', In d' (pd.index (yf.close (Sample.market "AAA"))) -> 19722 <= d' -> d <= d') /\
      get_historical_price Sample.market "AAA" 19722 = Ok c).
Proof.
  assert (Hs : Sorted Z.lt (pd.index (yf.close (Sample.market "AAA")))).
  { simpl. repeat constructor. }
  split; [exact Hs|].
  apply (get_historical_price_first_trading_day Sample.market "AAA" 19722 Hs).
  exists 19724. split; [simpl; tauto|lia].
Defined.

(** ** Missing line items *)

Ltac unfold_blocks :=
  unfold analysis_body, ratios, eps_block, shares_block, per_block, ebitda_block, pbv_block,
    solvency_block, roe_block, fcf_block, unavailable.

Ltac split_on_lines bg edo cashflow :=
  destruct (pd.loc edo "EBITDA");
  destruct (pd.loc bg "Common Stock Equity");
  destruct (pd.loc bg "Total Assets");
  destruct (pd.loc bg "Current Liabilities");
  destruct (pd.loc cashflow "Operating Cash Flow");
  destruct (pd.loc cashflow "Depreciation And Amortization").

(** C1: a ticker with non-empty statements that lacks the
    [Net Income Common Stockholders] line or the [Ordinary Shares Number]
    line gets no record at all: [prices] is never assigned, and building the
    returned dict raises [UnboundLocalError]. *)
Theorem missing_eps_input_raises :
  forall (p : Provider) (ticker : string) (use_quarterly : bool)
         (bg edo cashflow : pd.Statement),
    statements (p ticker) use_quarterly = (bg, edo, cashflow) ->
    no_data bg edo cashflow = false ->
    missing edo "Net Income Common Stockholders" \/ missing bg "Ordinary Shares Number" ->
    fundamental_analysis p ticker use_quarterly = Raise (UnboundLocalError "prices").
Proof.
  intros p ticker q bg edo cashflow Hst Hdata Hmiss.
  unfold fundamental_analysis. rewrite Hst, Hdata.
  unfold_blocks. unfold missing in Hmiss.
  destruct (pd.loc edo "Net Income Common Stockholders");
    destruct (pd.loc bg "Ordinary Shares Number");
    try (exfalso; tauto);
    split_on_lines bg edo cashflow; reflexivity.
Qed.

(** [BBB] has every line but [Ordinary Shares Number]. *)
Lemma missing_eps_input_raises_witness :
  fundamental_analysis Sample.market "BBB" false = Raise (UnboundLocalError "prices").
Proof.
  apply (missing_eps_input_raises Sample.market "BBB" false
           (pd.iloc_but_last (yf.balance_sheet Sample.BBB))
           (pd.iloc_but_last (yf.incomestmt Sample.BBB))
           (yf.cashflow Sample.BBB)).
  - reflexivity.
  - reflexivity.
  - right. exact I.
Defined.

(** ** Canonical order of the returned series *)




Section Assignments.

Variable P : string -> pyval -> Prop.














End Assignments.


Lemma return_dict_keys (keys : list string) (l l' : locals) (d : dict) :
  return_dict keys l = (Ok d, l') -> map fst d = keys.
Proof.
  revert l' d. induction keys as [|k0 keys IH]; simpl; intros l' d.
  - now intros [= <- _].
  - unfold bind at 1. unfold name at 1.
    destruct (lookup k0 l) as [v0|]; [|discriminate].
    unfold bind at 1.
    destruct (return_dict keys l) as [[d0|e] l0] eqn:Hrest; [|discriminate].
    intros [= <- _]. simpl. f_equal. eapply IH. reflexivity.
Qed.






(** ** The loop of [dataset_generator] *)

Lemma loop_invariant (I : Loop -> Prop) (p : Provider) (n : nat) :
  (forall i t st, I st -> I (iteration p n i t st)) ->
  forall tickers i st, I st -> I (loop p n i tickers st).
Proof.
  intros Hstep tickers. induction tickers as [|t tickers IH]; intros i st Hst; simpl.
  - exact Hst.
  - apply IH. now apply Hstep.
Qed.

(** A run aborts on a failed reset and otherwise is the loop from [start]. *)
Lemma dataset_generator_run (p : Provider) (tickers : list string) (d : Disk) :
  dataset_generator p tickers d =
    if hd false (faults d) then
      Aborted OSError
        {| results_csv := results_csv d; incomplete_csv := incomplete_csv d;
           faults := tl (faults d) |}
    else if hd false (tl (faults d)) then
      Aborted OSError
        {| results_csv := [Header []]; incomplete_csv := incomplete_csv d;
           faults := tl (tl (faults d)) |}
    else
      let st := loop p (List.length tickers) 0 tickers (start d) in
      Returned (results st) (disk st).
Proof.
  unfold dataset_generator, to_csv_results, to_csv_incomplete, start.
  destruct d as [r i fs]. simpl.
  destruct fs as [|[|] [|[|] fs]]; reflexivity.
Qed.

Lemma fundamental_analysis_keys (p : Provider) (t : string) (q : bool) (d : dict) :
  fundamental_analysis p t q = Ok (Some d) -> map fst d = result_keys.
Proof.
  unfold fundamental_analysis.
  destruct (statements (p t) q) as [[bg edo] cashflow].
  destruct (no_data bg edo cashflow); [discriminate|].
  unfold analysis_body, bind.
  destruct (ratios p t bg edo cashflow []) as [[[]|e] l]; cbn [fst snd]; [|discriminate].
  destruct (return_dict result_keys l) as [[d'|e] l'] eqn:Hret; cbn [fst snd]; [|discriminate].
  intros [= <-]. exact (return_dict_keys _ _ _ _ Hret).
Qed.

(** The frame of lines 160-163 has the dict's columns, [ticker] and
    [returns], and the ticker's symbol on every row. *)
Lemma analysed_frame (p : Provider) (t : string) (f : Frame) :
  analysed p t = Ok f ->
  fcolumns f = result_keys ++ ["ticker"; "returns"] /\
  Forall (fun r => ticker r = t) (frows f).
Proof.
  unfold analysed.
  destruct (fundamental_analysis p t false) as [[d|]|e] eqn:Hfa; [| |discriminate].
  - apply fundamental_analysis_keys in Hfa. unfold DataFrame.
    destruct (series_indexes d) as [|i idx]; [discriminate|].
    cbn [fcolumns frows]. rewrite Hfa.
    match goal with |- context [if ?c then _ else _] => destruct c end; [|discriminate].
    intros [= <-]. split; [reflexivity|].
    cbn [frows]. apply Forall_forall. intros r Hin.
    apply in_map_iff in Hin as ([r0 x] & <- & Hin).
    apply in_combine_l in Hin.
    apply in_map_iff in Hin as (r1 & <- & _). reflexivity.
  - simpl. discriminate.
Qed.

Lemma ticker_frame_Ok (p : Provider) (t : string) (f : Frame) :
  ticker_frame p t = Ok f ->
  fcolumns f = result_columns /\
  Forall (fun r => ticker r = t) (frows f) /\
  Forall (fun r => has_data r = true) (frows f).
Proof.
  unfold ticker_frame.
  destruct (analysed p t) as [g|e] eqn:Han; [|discriminate].
  apply analysed_frame in Han as [Hcols Hrows].
  intros [= <-]. unfold drop_and_date, dropna_all, data_columns.
  cbn [fcolumns frows]. rewrite Hcols.
  split; [reflexivity|]. split.
  - rewrite Forall_forall in *. intros r Hin.
    apply filter_In in Hin as [Hin _]. now apply Hrows.
  - apply Forall_forall. intros r Hin.
    apply filter_In in Hin as [_ Hdata]. exact Hdata.
Qed.

(** [iteration] takes one of the six ways of [step]. *)
Lemma iteration_step (p : Provider) (n i : nat) (t : string) (st : Loop) :
  step p n i t st (iteration p n i t st).
Proof.
  unfold iteration.
  destruct (ticker_frame p t) as [f|e] eqn:Hframe; [|now apply (step_skip _ _ _ _ _ e)].
  fold (flush_due n i). fold (noted t f st). fold (grown f st).
  destruct (flush_due n i) eqn:Hdue; [|now apply step_keep].
  destruct (to_csv_results (concat (batch st) f) mode_a (disk st)) as [[[]|e] d] eqn:Hcsv;
    [|now apply (step_flush_failed _ _ _ _ _ f e d)].
  destruct (noted t f st) as [|x l] eqn:Hnoted.
  - apply (step_flush_only _ _ _ _ _ f d); auto.
  - rewrite <- Hnoted in *.
    destruct (to_csv_incomplete ["ticker"] (noted t f st) mode_a d) as [[[]|e] d'] eqn:Hlog.
    + apply (step_flush_and_log _ _ _ _ _ f d d'); auto. rewrite Hnoted. discriminate.
    + apply (step_log_failed _ _ _ _ _ f e d d'); auto. rewrite Hnoted. discriminate.
Qed.

(** What a write does to the two files. *)
Lemma to_csv_results_files (f : Frame) (m : mode) (d d' : Disk) (r : res unit) :
  to_csv_results f m d = (r, d') ->
  incomplete_csv d' = incomplete_csv d /\
  match r with
  | Ok _ => results_csv d' = written m (results_csv d) (Header (fcolumns f) :: map Data (frows f))
  | Raise _ => results_csv d' = results_csv d
  end.
Proof.
  unfold to_csv_results.
  destruct (faults d) as [|[|] fs]; intros [= <- <-]; split; reflexivity.
Qed.

Lemma to_csv_incomplete_files (cols l : list string) (m : mode) (d d' : Disk) (r : res unit) :
  to_csv_incomplete cols l m d = (r, d') ->
  results_csv d' = results_csv d /\
  match r with
  | Ok _ => incomplete_csv d' = written m (incomplete_csv d) (Header cols :: map Data l)
  | Raise _ => incomplete_csv d' = incomplete_csv d
  end.
Proof.
  unfold to_csv_incomplete.
  destruct (faults d) as [|[|] fs]; intros [= <- <-]; split; reflexivity.
Qed.

(** ** The returned frame *)

Lemma iteration_results (p : Provider) (n i : nat) (t : string) (st : Loop) :
  frows (results (iteration p n i t st)) =
  frows (results st) ++ produced p t ++ produced p t.
Proof.
  unfold produced.
  destruct (iteration_step p n i t st) as [e Hf|f Hf|f e d Hf|f d Hf|f e d d' Hf|f d d' Hf];
    rewrite Hf; cbn [results grown concat frows];
    rewrite <- ?app_assoc, ?app_nil_r; reflexivity.
Qed.

Lemma loop_results (p : Provider) (n : nat) (tickers : list string) :
  forall i st,
    frows (results (loop p n i tickers st)) =
    frows (results st) ++ flat_map (fun t => produced p t ++ produced p t) tickers.
Proof.
  induction tickers as [|t tickers IH]; intros i st; simpl.
  - now rewrite app_nil_r.
  - rewrite IH, iteration_results, <- !app_assoc. reflexivity.
Qed.

(** C5, as the method has it: lines 171 and 175 both append the ticker's
    frame, so the returned frame holds the records of every ticker twice
    over, in processing order. *)
Theorem returned_results_hold_each_record_twice :
  forall (p : Provider) (tickers : list string) (d : Disk),
    match dataset_generator p tickers d with
    | Returned r _ => frows r = flat_map (fun t => produced p t ++ produced p t) tickers
    | Aborted _ _ => True
    end.
Proof.
  intros p tickers d. rewrite dataset_generator_run.
  destruct (hd false (faults d)); [exact I|].
  destruct (hd false (tl (faults d))); [exact I|].
  cbv beta iota zeta. now rewrite loop_results.
Qed.

(** ** Records without data *)

Lemma records_of_app (l1 l2 : list (csv_line RatioRecord)) :
  records_of (l1 ++ l2) = records_of l1 ++ records_of l2.
Proof. unfold records_of. apply flat_map_app. Qed.

Lemma records_of_Data (rows : list RatioRecord) : records_of (map Data rows) = rows.
Proof.
  induction rows as [|r rows IH]; simpl; [reflexivity|]. now rewrite IH.
Qed.

(** The records a successful flush adds to the results file are the
    batch's. *)
Lemma flushed_records (f : Frame) (d d' : Disk) :
  to_csv_results f mode_a d = (Ok tt, d') ->
  records_of (results_csv d') = records_of (results_csv d) ++ frows f.
Proof.
  intros H. apply to_csv_results_files in H as [_ ->].
  unfold written. rewrite records_of_app. simpl. now rewrite records_of_Data.
Qed.

Lemma produced_filter (p : Provider) (t : string) :
  match analysed p t with
  | Ok f => produced p t = filter has_data (frows f)
  | Raise _ => produced p t = []
  end.
Proof.
  unfold produced, ticker_frame.
  destruct (analysed p t) as [f|e] eqn:Han; [|reflexivity].
  apply analysed_frame in Han as [Hcols _].
  unfold drop_and_date, dropna_all, data_columns. cbn [frows fcolumns].
  rewrite Hcols. reflexivity.
Qed.

Section Records.

Variable Q : RatioRecord -> Prop.
Variable p : Provider.
Hypothesis produced_Q : forall t, Forall Q (produced p t).

Lemma iteration_all_records (n i : nat) (t : string) (st : Loop) :
  all_records Q st -> all_records Q (iteration p n i t st).
Proof.
  intros (Hres & Hbatch & Hfile).
  pose proof (produced_Q t) as Hprod. unfold produced in Hprod.
  unfold all_records.
  destruct (iteration_step p n i t st)
    as [e Hf|f Hf Hdue|f e d Hf Hdue Hw|f d Hf Hdue Hw Hn|f e d d' Hf Hdue Hw Hn Hl
        |f d d' Hf Hdue Hw Hn Hl];
    rewrite Hf in Hprod; cbn [results batch disk grown concat frows empty_frame];
    try (apply to_csv_incomplete_files in Hl as [-> _]);
    try (apply flushed_records in Hw; rewrite Hw);
    try (apply to_csv_results_files in Hw as [_ ->]);
    rewrite ?Forall_app; cbn [frows concat]; rewrite ?Forall_app; auto 10.
Qed.

Lemma loop_all_records (n : nat) (tickers : list string) (i : nat) (st : Loop) :
  all_records Q st -> all_records Q (loop p n i tickers st).
Proof.
  apply (loop_invariant (all_records Q)). intros; now apply iteration_all_records.
Qed.

Lemma start_all_records (d : Disk) : all_records Q (start d).
Proof. unfold all_records, start. simpl. auto. Qed.

End Records.

(** C10: every record a ticker contributes has a value that is not
    missing among its value columns, the records a ticker contributes are
    exactly the rows of its frame that have one, and so have all records
    that a run returns or writes. *)
Theorem records_have_data :
  forall (p : Provider) (t : string),
    Forall (fun r => has_data r = true) (produced p t) /\
    match analysed p t with
    | Ok f => produced p t = filter has_data (frows f)
    | Raise _ => produced p t = []
    end /\
    forall (tickers : list string) (d : Disk),
      match dataset_generator p tickers d with
      | Returned r d' =>
          Forall (fun x => has_data x = true) (frows r) /\
          Forall (fun x => has_data x = true) (records_of (results_csv d'))
      | Aborted _ _ => True
      end.
Proof.
  intros p t.
  assert (Hprod : forall t', Forall (fun r => has_data r = true) (produced p t')).
  { intros t'. unfold produced.
    destruct (ticker_frame p t') as [f|e] eqn:Hf; [|constructor].
    now apply ticker_frame_Ok in Hf. }
  split; [apply Hprod|]. split; [apply produced_filter|].
  intros tickers d. rewrite dataset_generator_run.
  destruct (hd false (faults d)); [exact I|].
  destruct (hd false (tl (faults d))); [exact I|].
  cbv beta iota zeta.
  pose proof (loop_all_records _ p Hprod (List.length tickers) tickers 0%nat (start d)
                (start_all_records _ d)) as (Hres & _ & Hfile).
  now split.
Qed.

(** ** Tickers with an empty statement *)

Lemma empty_statement_returns_None (p : Provider) (t : string) :
  an_empty_statement p t -> fundamental_analysis p t false = Ok None.
Proof.
  unfold an_empty_statement, fundamental_analysis.
  destruct (statements (p t) false) as [[bg edo] cashflow]. simpl.
  now intros ->.
Qed.

(** [pd.DataFrame(None)] has no [prices] column: line 163 raises. *)
Lemma empty_statement_raises (p : Provider) (t : string) :
  an_empty_statement p t -> ticker_frame p t = Raise (KeyError "prices").
Proof.
  intros H. unfold ticker_frame, analysed.
  now rewrite (empty_statement_returns_None p t H).
Qed.

Lemma In_Data_map {A : Type} (x : A) (l : list A) : In (Data x) (map Data l) -> In x l.
Proof.
  intros H. apply in_map_iff in H as (y & [= ->] & Hy). exact Hy.
Qed.

Lemma iteration_unlogged (p : Provider) (t : string) :
  an_empty_statement p t ->
  forall n i t' st, unlogged t st -> unlogged t (iteration p n i t' st).
Proof.
  intros Hempty n i t' st [Hlist Hfile].
  assert (Hnoted : forall f, ticker_frame p t' = Ok f -> ~ In t (noted t' f st)).
  { intros f Hf Hin. unfold noted in Hin.
    destruct (existsb incomplete (frows f)); [|contradiction].
    apply in_app_or in Hin as [Hin|[->|[]]]; [contradiction|].
    rewrite (empty_statement_raises p t Hempty) in Hf. discriminate. }
  unfold unlogged.
  destruct (iteration_step p n i t' st)
    as [e Hf|f Hf Hdue|f e d Hf Hdue Hw|f d Hf Hdue Hw Hn|f e d d' Hf Hdue Hw Hn Hl
        |f d d' Hf Hdue Hw Hn Hl];
    cbn [incomplete_list disk];
    try (apply to_csv_incomplete_files in Hl as [_ Hl]; rewrite Hl);
    try (apply to_csv_results_files in Hw as [-> _]);
    try specialize (Hnoted f Hf); auto.
  split; [intros []|]. unfold written. intros Hin.
  apply in_app_or in Hin as [Hin|[Hin|Hin]]; [contradiction|discriminate|].
  apply In_Data_map in Hin. contradiction.
Qed.

(** C2, as the method has it: a ticker with an entirely empty statement
    gets [None] from the analysis, contributes no record, leaves the three
    accumulators as they were for the next ticker, and appears in no record
    returned or written and not in the incomplete file. *)
Theorem empty_statement_ticker_is_skipped :
  forall (p : Provider) (t : string),
    an_empty_statement p t ->
    fundamental_analysis p t false = Ok None /\
    produced p t = [] /\
    (forall n i st,
        results (iteration p n i t st) = results st /\
        batch (iteration p n i t st) = batch st /\
        incomplete_list (iteration p n i t st) = incomplete_list st) /\
    forall (tickers : list string) (d : Disk),
      match dataset_generator p tickers d with
      | Returned r d' =>
          Forall (fun x => ticker x <> t) (frows r) /\
          Forall (fun x => ticker x <> t) (records_of (results_csv d')) /\
          ~ In (Data t) (incomplete_csv d')
      | Aborted _ _ => True
      end.
Proof.
  intros p t Hempty.
  pose proof (empty_statement_raises p t Hempty) as Hraise.
  split; [now apply empty_statement_returns_None|].
  split; [unfold produced; now rewrite Hraise|].
  split; [intros n i st; unfold iteration; now rewrite Hraise|].
  intros tickers d. rewrite dataset_generator_run.
  destruct (hd false (faults d)); [exact I|].
  destruct (hd false (tl (faults d))); [exact I|].
  cbv beta iota zeta.
  assert (Hprod : forall t', Forall (fun x => ticker x <> t) (produced p t')).
  { intros t'. unfold produced.
    destruct (ticker_frame p t') as [f|e] eqn:Hf; [|constructor].
    destruct (string_dec t' t) as [->|Hne]; [rewrite Hraise in Hf; discriminate|].
    apply ticker_frame_Ok in Hf as (_ & Hticker & _).
    rewrite Forall_forall in *. intros r Hin. now rewrite (Hticker r Hin). }
  pose proof (loop_all_records _ p Hprod (List.length tickers) tickers 0%nat (start d)
                (start_all_records _ d)) as (Hres & _ & Hfile).
  split; [exact Hres|]. split; [exact Hfile|].
  apply (loop_invariant (unlogged t) p (List.length tickers)
           (fun i t' st => iteration_unlogged p t Hempty _ i t' st) tickers 0%nat (start d)).
  unfold unlogged, start. simpl. split; [tauto|]. intros [H|[]]. discriminate.
Qed.

(** [CCC] has an empty balance sheet. *)
Lemma empty_statement_ticker_is_skipped_witness :
  an_empty_statement Sample.market "CCC" /\
  fundamental_analysis Sample.market "CCC" false = Ok None /\
  produced Sample.market "CCC" = [].
Proof.
  assert (H : an_empty_statement Sample.market "CCC") by reflexivity.
  split; [exact H|].
  pose proof (empty_statement_ticker_is_skipped Sample.market "CCC" H) as (H1 & H2 & _).
  now split.
Defined.

(** C2 as stated fails on the list [CCC, AAA]: the run flushes after
    [AAA], and [CCC], whose balance sheet is empty, is not in the
    incomplete file. *)
Lemma empty_statement_ticker_not_logged :
  an_empty_statement Sample.market "CCC" /\
  exists r d,
    dataset_generator Sample.market ["CCC"; "AAA"] Sample.blank_disk = Returned r d /\
    List.length (records_of (results_csv d)) = 3%nat /\
    incomplete_csv d = [Header []] /\
    ~ In (Data "CCC") (incomplete_csv d).
Proof.
  split; [reflexivity|].
  eexists. eexists. split; [vm_compute; reflexivity|].
  split; [reflexivity|]. split; [reflexivity|].
  simpl. intros [H|[]]. discriminate.
Qed.

(** ** Header rows of the results file *)

Lemma header_rows_app {A : Type} (l1 l2 : list (csv_line A)) :
  header_rows (l1 ++ l2) = header_rows l1 ++ header_rows l2.
Proof. unfold header_rows. apply filter_app. Qed.

Lemma header_rows_Data {A : Type} (rows : list A) : header_rows (map Data rows) = [].
Proof.
  induction rows as [|r rows IH]; simpl; [reflexivity|exact IH].
Qed.

Lemma header_rows_flush (rows : list RatioRecord) (new : list (csv_line RatioRecord)) :
  header_rows ((Header result_columns :: map Data rows) ++ new) =
  Header result_columns :: header_rows new.
Proof.
  rewrite header_rows_app.
  change (header_rows (Header result_columns :: map Data rows))
    with (Header (A := RatioRecord) result_columns :: header_rows (map Data rows)).
  now rewrite header_rows_Data.
Qed.

Lemma concat_columns (b f : Frame) :
  fcolumns b = [] \/ fcolumns b = result_columns ->
  fcolumns f = result_columns ->
  fcolumns (concat b f) = result_columns.
Proof.
  unfold concat, has_column. cbn [fcolumns].
  intros [-> | ->] ->; reflexivity.
Qed.

Lemma iteration_appends_batch (p : Provider) (n i : nat) (t : string) (st : Loop) :
  batch_columns_known st ->
  batch_columns_known (iteration p n i t st) /\ appends_batch st (iteration p n i t st).
Proof.
  intros Hb. unfold batch_columns_known, appends_batch, flushed.
  destruct (iteration_step p n i t st)
    as [e Hf|f Hf Hdue|f e d Hf Hdue Hw|f d Hf Hdue Hw Hn|f e d d' Hf Hdue Hw Hn Hl
        |f d d' Hf Hdue Hw Hn Hl];
    cbn [batch disk empty_frame fcolumns];
    try (apply ticker_frame_Ok in Hf as (Hcols & _));
    try (pose proof (concat_columns (batch st) f Hb Hcols) as Hcat);
    try (apply to_csv_incomplete_files in Hl as [-> _]);
    try (apply to_csv_results_files in Hw as [_ ->]; unfold written; rewrite ?Hcat).
  - split; [exact Hb|]. left. split; [reflexivity|apply Nat.ltb_irrefl].
  - split; [now right|]. left. split; [reflexivity|apply Nat.ltb_irrefl].
  - split; [now right|]. left. split; [reflexivity|apply Nat.ltb_irrefl].
  - split; [now left|]. right. eexists. split; [reflexivity|].
    apply Nat.ltb_lt. rewrite length_app. simpl. lia.
  - split; [now left|]. right. eexists. split; [reflexivity|].
    apply Nat.ltb_lt. rewrite length_app. simpl. lia.
  - split; [now left|]. right. eexists. split; [reflexivity|].
    apply Nat.ltb_lt. rewrite length_app. simpl. lia.
Qed.

Lemma loop_header_rows (p : Provider) (n : nat) (tickers : list string) :
  forall i st,
    batch_columns_known st ->
    exists new,
      results_csv (disk (loop p n i tickers st)) = results_csv (disk st) ++ new /\
      Forall (fun h => h = Header result_columns) (header_rows new) /\
      List.length (header_rows new) = List.length (flushes p n i tickers st).
Proof.
  induction tickers as [|t tickers IH]; intros i st Hb; simpl.
  - exists []. rewrite app_nil_r. repeat split. constructor.
  - destruct (iteration_appends_batch p n i t st Hb) as [Hb' Happ].
    destruct (IH (S i) _ Hb') as (new & Hfile & Hall & Hlen).
    destruct Happ as [[Hsame ->]|(rows & Hgrow & ->)].
    + exists new. rewrite Hfile, Hsame. auto.
    + exists ((Header result_columns :: map Data rows) ++ new).
      rewrite Hfile, Hgrow, <- app_assoc. split; [reflexivity|].
      rewrite header_rows_flush. simpl.
      split; [constructor; [reflexivity|exact Hall]|now rewrite Hlen].
Qed.

(** C4, as the method has it: the reset leaves one empty header line, and
    every flush appends the header row of the result columns before its
    records, so the file holds one column-header row per flush. *)
Theorem one_header_row_per_flush :
  forall (p : Provider) (tickers : list string) (d : Disk),
    match dataset_generator p tickers d with
    | Returned _ d' =>
        hd_error (results_csv d') = Some (Header []) /\
        Forall (fun h => h = Header result_columns) (header_rows (results_csv d')) /\
        List.length (header_rows (results_csv d')) =
          List.length (flush_positions p tickers d)
    | Aborted _ _ => True
    end.
Proof.
  intros p tickers d. rewrite dataset_generator_run.
  destruct (hd false (faults d)); [exact I|].
  destruct (hd false (tl (faults d))); [exact I|].
  cbv beta iota zeta. unfold flush_positions.
  destruct (loop_header_rows p (List.length tickers) tickers 0%nat (start d))
    as (new & -> & Hall & Hlen); [now left|].
  simpl. auto.
Qed.

(** C4 as stated fails on a list of twenty-one tickers: the flushes after
    the twentieth and after the last ticker each write the header row. *)
Lemma header_row_written_at_every_flush :
  exists r d,
    dataset_generator Sample.market Sample.tickers21 Sample.blank_disk = Returned r d /\
    flush_positions Sample.market Sample.tickers21 Sample.blank_disk = [20; 21]%nat /\
    header_rows (results_csv d) = [Header result_columns; Header result_columns].
Proof.
  eexists. eexists. split; [vm_compute; reflexivity|].
  split; vm_compute; reflexivity.
Qed.

(** ** Flushes *)

(** C3, where the method departs from it: a ticker whose iteration raises
    takes the flush of its position with it.  With [CCC] last, the records
    of [AAA] are returned and never written; with [CCC] in the twentieth
    place of twenty-one, the only flush is the last one. *)
Theorem raising_ticker_skips_its_flush :
  flush_positions Sample.market ["AAA"; "CCC"] Sample.blank_disk = [] /\
  (exists r d,
      dataset_generator Sample.market ["AAA"; "CCC"] Sample.blank_disk = Returned r d /\
      List.length (frows r) = 6%nat /\
      results_csv d = [Header []]) /\
  flush_positions Sample.market Sample.tickers21_CCC Sample.blank_disk = [21]%nat.
Proof.
  split; [vm_compute; reflexivity|]. split; [|vm_compute; reflexivity].
  eexists. eexists. split; [vm_compute; reflexivity|].
  split; reflexivity.
Qed.

(** ** Failures *)

(** C7, as the method has it: an exception raised while a ticker's frame
    is built leaves the loop's state as it was for the next ticker, and a
    run aborts exactly when one of the two resetting writes fails; a write
    that fails in a flush is caught like any other exception. *)
Theorem only_failed_resets_abort :
  forall (p : Provider),
    (forall t n i st,
        match ticker_frame p t with
        | Raise _ => iteration p n i t st = st
        | Ok _ => True
        end) /\
    (forall tickers d,
        match dataset_generator p tickers d with
        | Aborted e _ => e = OSError /\ resets_succeed d = false
        | Returned _ _ => resets_succeed d = true
        end).
Proof.
  intros p. split.
  - intros t n i st. unfold iteration. now destruct (ticker_frame p t).
  - intros tickers d. rewrite dataset_generator_run. unfold resets_succeed.
    destruct (hd false (faults d)); [now split|].
    destruct (hd false (tl (faults d))); [now split|].
    reflexivity.
Qed.

(** C7 as stated fails on a disk whose first flush fails: the run of
    [AAA] returns its records, and nothing of them is on the disk. *)
Lemma failed_flush_is_not_fatal :
  flush_positions Sample.market ["AAA"] Sample.failing_disk = [] /\
  exists r d,
    dataset_generator Sample.market ["AAA"] Sample.failing_disk = Returned r d /\
    List.length (frows r) = 6%nat /\
    results_csv d = [Header []] /\
    faults d = [].
Proof.
  split; [vm_compute; reflexivity|].
  eexists. eexists. split; [vm_compute; reflexivity|].
  repeat split; reflexivity.
Qed.

(** ** Reruns *)

(** C9: two runs over the same tickers, provider and storage faults end
    alike whatever the destinations held before: both abort on the same
    exception, or both return the same frame and leave the same files. *)
Theorem rerun_is_identical :
  forall (p : Provider) (tickers : list string)
         (r1 r2 : list (csv_line RatioRecord)) (i1 i2 : list (csv_line string))
         (fs : list bool),
    match dataset_generator p tickers
            {| results_csv := r1; incomplete_csv := i1; faults := fs |},
          dataset_generator p tickers
            {| results_csv := r2; incomplete_csv := i2; faults := fs |}
    with
    | Returned f1 d1, Returned f2 d2 => f1 = f2 /\ d1 = d2
    | Aborted e1 _, Aborted e2 _ => e1 = e2
    | _, _ => False
    end.
Proof.
  intros p tickers r1 r2 i1 i2 fs. rewrite !dataset_generator_run.
  unfold start. cbn [faults].
  destruct (hd false fs); [reflexivity|].
  destruct (hd false (tl fs)); [reflexivity|].
  cbv beta iota zeta. now split.
Qed.

(** ** The analysis when EPS and prices resolve *)

(** With the net-income and shares lines present and a quote for every EPS
    period, the analysis returns its dict: EPS, PER, prices and shares are
    series, each remaining ratio is [None] exactly when a line of its
    formula is missing, and [incomplete] is set exactly when one is. *)
Theorem analysis_marks_exactly_the_dependent_ratios :
  forall (p : Provider) (ticker : string) (use_quarterly : bool)
         (bg edo cashflow : pd.Statement) (income n_shares : pd.Series)
         (quotes : list float),
    statements (p ticker) use_quarterly = (bg, edo, cashflow) ->
    no_data bg edo cashflow = false ->
    pd.loc edo "Net Income Common Stockholders" = Ok income ->
    pd.loc bg "Ordinary Shares Number" = Ok n_shares ->
    comprehension (get_historical_price p ticker)
      (pd.index (pd.sort_index_desc (pd.div income n_shares))) = Ok quotes ->
    exists d,
      fundamental_analysis p ticker use_quarterly = Ok (Some d) /\
      lookup "eps" d = Some (PSeries (pd.sort_index_desc (pd.div income n_shares))) /\
      lookup "shares" d = Some (PSeries n_shares) /\
      (exists s, lookup "prices" d = Some (PSeries s)) /\
      (exists s, lookup "per" d = Some (PSeries s)) /\
      (lookup "ebitda" d = Some PNone <-> missing edo "EBITDA") /\
      (lookup "pbv" d = Some PNone <-> missing bg "Common Stock Equity") /\
      (lookup "solvency" d = Some PNone <->
         missing bg "Total Assets" \/ missing bg "Current Liabilities") /\
      (lookup "roe" d = Some PNone <-> missing bg "Common Stock Equity") /\
      (lookup "fcf" d = Some PNone <->
         missing cashflow "Operating Cash Flow" \/
         missing cashflow "Depreciation And Amortization" \/
         missing bg "Total Assets" \/ missing bg "Current Liabilities") /\
      (lookup "incomplete" d = Some (PBool true) <->
         missing edo "EBITDA" \/ missing bg "Common Stock Equity" \/
         missing bg "Total Assets" \/ missing bg "Current Liabilities" \/
         missing cashflow "Operating Cash Flow" \/
         missing cashflow "Depreciation And Amortization").
Proof.
  intros p ticker q bg edo cashflow income n_shares quotes Hst Hdata Hinc Hsh Hq.
  unfold fundamental_analysis. rewrite Hst, Hdata.
  unfold_blocks. unfold missing. rewrite Hinc, Hsh.
  unfold bind, try_except, lift, assign, operand, index_of, name, bind, ret, raise.
  split_on_lines bg edo cashflow;
    cbn -[comprehension get_historical_price pd.sort_index_desc pd.div pd.sub pd.add
          pd.mul_scalar pd.index];
    rewrite Hq;
    cbn -[comprehension get_historical_price pd.sort_index_desc pd.div pd.sub pd.add
          pd.mul_scalar pd.index];
    (eexists; split; [reflexivity|]);
    cbn -[pd.sort_index_desc pd.div pd.sub pd.add pd.mul_scalar pd.index];
    repeat split; eauto; try tauto; try discriminate; intuition discriminate.
Qed.

(** [DDD] has every line but [EBITDA]. *)
Lemma analysis_marks_exactly_the_dependent_ratios_witness :
  exists d,
    fundamental_analysis Sample.market "DDD" false = Ok (Some d) /\
    lookup "ebitda" d = Some PNone /\
    lookup "incomplete" d = Some (PBool true).
Proof.
  edestruct (analysis_marks_exactly_the_dependent_ratios Sample.market "DDD" false)
    as (d & Hd & _ & _ & _ & _ & Hebitda & _ & _ & _ & _ & Hinc);
    [reflexivity | reflexivity | reflexivity | reflexivity | vm_compute; reflexivity |].
  exists d. split; [exact Hd|]. split.
  - apply Hebitda. exact I.
  - apply Hinc. left. exact I.
Defined.

(** ** The flush schedule of a run without failures *)

Lemma to_csv_results_fault_free (f : Frame) (m : mode) (d : Disk) :
  fault_free d ->
  exists d', to_csv_results f m d = (Ok tt, d') /\ fault_free d'.
Proof.
  unfold fault_free, to_csv_results. intros Hd.
  destruct (faults d) as [|[|] fs] eqn:Hfs.
  - eexists. split; [reflexivity|]. simpl. constructor.
  - inversion Hd. discriminate.
  - eexists. split; [reflexivity|]. simpl. now inversion Hd.
Qed.

Lemma to_csv_incomplete_fault_free (cols l : list string) (m : mode) (d : Disk) :
  fault_free d ->
  exists d', to_csv_incomplete cols l m d = (Ok tt, d') /\ fault_free d'.
Proof.
  unfold fault_free, to_csv_incomplete. intros Hd.
  destruct (faults d) as [|[|] fs] eqn:Hfs.
  - eexists. split; [reflexivity|]. simpl. constructor.
  - inversion Hd. discriminate.
  - eexists. split; [reflexivity|]. simpl. now inversion Hd.
Qed.

Lemma flushed_after_write (f : Frame) (st : Loop) (d : Disk) (l : list string) (fr : Frame) :
  to_csv_results f mode_a (disk st) = (Ok tt, d) ->
  forall d', results_csv d' = results_csv d ->
  flushed st {| results := fr; batch := empty_frame; incomplete_list := l; disk := d' |} = true.
Proof.
  intros Hw d' Hd'. unfold flushed. cbn [disk]. rewrite Hd'.
  apply to_csv_results_files in Hw as [_ ->]. unfold written.
  apply Nat.ltb_lt. rewrite length_app. simpl. lia.
Qed.

Lemma iteration_flushes_when_due (p : Provider) (n i : nat) (t : string) (st : Loop) :
  fault_free (disk st) ->
  (exists f, ticker_frame p t = Ok f) ->
  flushed st (iteration p n i t st) = flush_due n i /\
  fault_free (disk (iteration p n i t st)).
Proof.
  intros Hfree [f0 Hok].
  destruct (iteration_step p n i t st)
    as [e Hf|f Hf Hdue|f e d Hf Hdue Hw|f d Hf Hdue Hw Hn|f e d d' Hf Hdue Hw Hn Hl
        |f d d' Hf Hdue Hw Hn Hl]; rewrite Hdue || idtac.
  - rewrite Hok in Hf. discriminate.
  - split; [apply Nat.ltb_irrefl|exact Hfree].
  - destruct (to_csv_results_fault_free (concat (batch st) f) mode_a _ Hfree)
      as (d0 & Hw0 & _). rewrite Hw0 in Hw. discriminate.
  - destruct (to_csv_results_fault_free (concat (batch st) f) mode_a _ Hfree)
      as (d0 & Hw0 & Hfree0). rewrite Hw0 in Hw. injection Hw as <-.
    split; [|exact Hfree0]. now apply (flushed_after_write _ _ _ _ _ Hw0).
  - destruct (to_csv_results_fault_free (concat (batch st) f) mode_a _ Hfree)
      as (d0 & Hw0 & Hfree0). rewrite Hw0 in Hw. injection Hw as <-.
    destruct (to_csv_incomplete_fault_free ["ticker"] (noted t f st) mode_a _ Hfree0)
      as (d1 & Hl1 & _). rewrite Hl1 in Hl. discriminate.
  - destruct (to_csv_results_fault_free (concat (batch st) f) mode_a _ Hfree)
      as (d0 & Hw0 & Hfree0). rewrite Hw0 in Hw. injection Hw as <-.
    destruct (to_csv_incomplete_fault_free ["ticker"] (noted t f st) mode_a _ Hfree0)
      as (d1 & Hl1 & Hfree1). rewrite Hl1 in Hl. injection Hl as <-.
    split; [|exact Hfree1].
    apply (flushed_after_write _ _ _ _ _ Hw0).
    now apply to_csv_incomplete_files in Hl1 as [-> _].
Qed.

Lemma flushes_when_due (p : Provider) (n : nat) (tickers : list string) :
  (forall t, In t tickers -> exists f, ticker_frame p t = Ok f) ->
  forall i st,
    fault_free (disk st) ->
    flushes p n i tickers st =
    filter (fun k => ((k mod 20 =? 0) || (k =? n))%nat) (seq (S i) (List.length tickers)).
Proof.
  induction tickers as [|t tickers IH]; intros Hok i st Hfree; [reflexivity|].
  destruct (iteration_flushes_when_due p n i t st Hfree (Hok t (or_introl eq_refl)))
    as [Hflushed Hfree'].
  cbn [flushes List.length seq filter]. rewrite Hflushed.
  rewrite (IH (fun t' H => Hok t' (or_intror H)) (S i) _ Hfree').
  unfold flush_due. rewrite Nat.add_1_r.
  now destruct (((S i mod 20 =? 0) || (S i =? n))%nat).
Qed.

(** On storage without faults and with every ticker's frame built, the
    flushes come after every twentieth ticker and after the last one. *)
Theorem flushes_every_twentieth_and_last :
  forall (p : Provider) (tickers : list string) (d : Disk),
    fault_free d ->
    (forall t, In t tickers -> exists f, ticker_frame p t = Ok f) ->
    flush_positions p tickers d = due_positions (List.length tickers).
Proof.
  intros p tickers d Hfree Hok. unfold flush_positions, due_positions.
  apply flushes_when_due; [exact Hok|].
  unfold fault_free, start in *. cbn [disk faults].
  destruct (faults d) as [|b1 [|b2 fs]]; simpl; try constructor.
  inversion Hfree as [|? ? _ Hfs]; subst. now inversion Hfs.
Qed.

Lemma frame_built (p : Provider) (t : string) :
  match ticker_frame p t with Ok _ => true | Raise _ => false end = true ->
  exists f, ticker_frame p t = Ok f.
Proof.
  destruct (ticker_frame p t) as [f|e]; [now exists f|discriminate].
Qed.

(** Forty-five tickers with complete statements: flushes after the
    twentieth, the fortieth and the forty-fifth. *)
Lemma flushes_every_twentieth_and_last_witness :
  flush_positions Sample.market Sample.tickers45 Sample.blank_disk = [20; 40; 45]%nat.
Proof.
  rewrite (flushes_every_twentieth_and_last Sample.market Sample.tickers45
             Sample.blank_disk).
  - reflexivity.
  - constructor.
  - intros t Hin. apply frame_built.
    unfold Sample.tickers45 in Hin. simpl in Hin.
    repeat (destruct Hin as [<-|Hin]; [vm_compute; reflexivity|]).
    contradiction.
Defined.

(** ** The frame of a ticker *)

(** Every record a ticker contributes carries the ticker's symbol, and a
    frame that reaches the batch has the ten keys of the dict followed by
    [ticker], [returns] and [date] as its columns. *)
Theorem produced_records_carry_the_ticker :
  forall (p : Provider) (t : string),
    Forall (fun r => ticker r = t) (produced p t) /\
    match ticker_frame p t with
    | Ok f =>
        fcolumns f =
          ["eps"; "per"; "ebitda"; "pbv"; "solvency"; "roe"; "fcf"; "prices"; "shares";
           "incomplete"; "ticker"; "returns"; "date"]
    | Raise _ => True
    end.
Proof.
  intros p t. unfold produced.
  destruct (ticker_frame p t) as [f|e] eqn:Hf; [|split; [constructor|exact I]].
  apply ticker_frame_Ok in Hf as (Hcols & Hticker & _). now split.
Qed.

(** * Further properties *)

(** ** Series arithmetic is by label *)

Lemma value_at_absent (s : pd.Series) (d : pd.Timestamp) :
  ~ In d (pd.index s) -> pd.value_at s d = nan.
Proof.
  unfold pd.value_at. intros Hd.
  destruct (find (fun e => fst e =? d) s) as [e|] eqn:Hf; [|reflexivity].
  apply find_some in Hf as [Hin Heq]. apply Z.eqb_eq in Heq.
  exfalso. apply Hd. subst d. unfold pd.index. now apply in_map.
Qed.

Lemma value_at_cons (e : pd.Timestamp * float) (s : pd.Series) (d : pd.Timestamp) :
  pd.value_at (e :: s) d = if fst e =? d then snd e else pd.value_at s d.
Proof.
  destruct e as [de x]. unfold pd.value_at. simpl. now destruct (de =? d).
Qed.

Lemma value_at_insert_desc (e : pd.Timestamp * float) (s : pd.Series) (d : pd.Timestamp) :
  pd.value_at (pd.insert_desc e s) d = if fst e =? d then snd e else pd.value_at s d.
Proof.
  induction s as [|x s IH]; simpl.
  - apply value_at_cons.
  - destruct (fst x <=? fst e) eqn:Hle.
    + apply value_at_cons.
    + rewrite value_at_cons, IH, value_at_cons.
      destruct (fst e =? d) eqn:He; [|reflexivity].
      apply Z.eqb_eq in He. apply Z.leb_gt in Hle.
      destruct (fst x =? d) eqn:Hx; [|reflexivity].
      apply Z.eqb_eq in Hx. lia.
Qed.

(** Sorting a series leaves the value under every label as it was. *)
Lemma value_at_sort_index_desc (s : pd.Series) (d : pd.Timestamp) :
  pd.value_at (pd.sort_index_desc s) d = pd.value_at s d.
Proof.
  induction s as [|e s IH]; simpl; [reflexivity|].
  now rewrite value_at_insert_desc, IH, value_at_cons.
Qed.

Lemma In_insert_desc (e x : pd.Timestamp * float) (s : pd.Series) :
  In x (pd.insert_desc e s) <-> x = e \/ In x s.
Proof.
  induction s as [|y s IH]; simpl.
  - intuition.
  - destruct (fst y <=? fst e); simpl; [intuition|]. rewrite IH. intuition.
Qed.

Lemma In_sort_index_desc (x : pd.Timestamp * float) (s : pd.Series) :
  In x (pd.sort_index_desc s) <-> In x s.
Proof.
  induction s as [|e s IH]; simpl; [tauto|].
  rewrite In_insert_desc, IH. intuition.
Qed.

Lemma In_insert_asc (d x : pd.Timestamp) (l : pd.Index) :
  In x (pd.insert_asc d l) <-> x = d \/ In x l.
Proof.
  induction l as [|y l IH]; simpl.
  - intuition.
  - destruct (d <=? y); simpl; [intuition|]. rewrite IH. intuition.
Qed.

Lemma In_sort_values (x : pd.Timestamp) (l : pd.Index) :
  In x (pd.sort_values l) <-> In x l.
Proof.
  induction l as [|d l IH]; simpl; [tauto|].
  rewrite In_insert_asc, IH. intuition.
Qed.

(** The labels of a union are those of its operands. *)
Lemma In_union (a b : pd.Index) (d : pd.Timestamp) :
  In d (pd.union a b) <-> In d a \/ In d b.
Proof.
  unfold pd.union.
  destruct b as [|y b]; [simpl; tauto|].
  destruct a as [|x a]; [simpl; tauto|].
  unfold pd.equals.
  destruct (list_eq_dec Z.eq_dec (x :: a) (y :: b)) as [Heq|Hne].
  - rewrite <- Heq. tauto.
  - rewrite In_sort_values, in_app_iff, filter_In.
    split.
    + intros [H|[H _]]; auto.
    + intros [H|H]; [now left|].
      destruct (existsb (Z.eqb d) (x :: a)) eqn:Hex.
      * left. apply existsb_exists in Hex as (z & Hz & Hdz).
        apply Z.eqb_eq in Hdz. now subst.
      * right. split; [exact H|reflexivity].
Qed.

Lemma value_at_labelled (g : pd.Timestamp -> float) (l : pd.Index) (d : pd.Timestamp) :
  pd.value_at (map (fun x => (x, g x)) l) d = if existsb (Z.eqb d) l then g d else nan.
Proof.
  induction l as [|x l IH]; simpl; [reflexivity|].
  rewrite value_at_cons, IH. simpl. rewrite (Z.eqb_sym d x).
  destruct (x =? d) eqn:Hx; [|reflexivity].
  apply Z.eqb_eq in Hx. now subst.
Qed.

Lemma value_at_positional (f : float -> float -> float) (a : pd.Series) :
  f nan nan = nan ->
  forall (b : pd.Series) (d : pd.Timestamp),
    pd.index a = pd.index b ->
    pd.value_at (map (fun e => (fst (fst e), f (snd (fst e)) (snd (snd e)))) (combine a b)) d =
    f (pd.value_at a d) (pd.value_at b d).
Proof.
  intros Hnan. induction a as [|[da x] a IH]; intros [|[db y] b] d Hidx;
    try discriminate.
  - change (nan = f nan nan). now rewrite Hnan.
  - injection Hidx as <- Hidx. cbn [combine map fst snd].
    rewrite !value_at_cons. cbn [fst snd].
    destruct (da =? d); [reflexivity|]. now apply IH.
Qed.

(** The value of [a op b] under a label is [op] of the operands' values
    under that label, a missing one counting as NaN. *)
Lemma value_at_binop (f : float -> float -> float) (a b : pd.Series) (d : pd.Timestamp) :
  f nan nan = nan ->
  pd.value_at (pd.binop f a b) d = f (pd.value_at a d) (pd.value_at b d).
Proof.
  intros Hnan. unfold pd.binop, pd.equals.
  destruct (list_eq_dec Z.eq_dec (pd.index a) (pd.index b)) as [Heq|Hne].
  - now apply value_at_positional.
  - rewrite (value_at_labelled (fun x => f (pd.value_at a x) (pd.value_at b x))).
    destruct (existsb (Z.eqb d) (pd.union (pd.index a) (pd.index b))) eqn:Hex;
      [reflexivity|].
    assert (Hout : ~ In d (pd.union (pd.index a) (pd.index b))).
    { intros Hin. apply Bool.not_true_iff_false in Hex. apply Hex.
      apply existsb_exists. exists d. split; [exact Hin|apply Z.eqb_refl]. }
    rewrite In_union in Hout.
    rewrite !value_at_absent; [now rewrite Hnan| |]; tauto.
Qed.

Lemma value_at_mul_scalar (a : pd.Series) (k : float) (d : pd.Timestamp) :
  PrimFloat.mul nan k = nan ->
  pd.value_at (pd.mul_scalar a k) d = PrimFloat.mul (pd.value_at a d) k.
Proof.
  intros Hnan. unfold pd.mul_scalar.
  induction a as [|[de x] a IH].
  - change (nan = PrimFloat.mul nan k). now rewrite Hnan.
  - cbn [map fst snd]. rewrite !value_at_cons, IH. cbn [fst snd].
    now destruct (de =? d).
Qed.

(** A series already most recent first is left as it is. *)
Lemma sort_index_desc_sorted_id (s : pd.Series) :
  most_recent_first s -> pd.sort_index_desc s = s.
Proof.
  unfold most_recent_first.
  induction s as [|e s IH]; simpl; intros Hs; [reflexivity|].
  inversion Hs as [|? ? Hs' Hhd]; subst. rewrite (IH Hs').
  destruct s as [|x s]; [reflexivity|]. simpl.
  inversion Hhd as [|? ? Hge]; subst.
  destruct (fst x <=? fst e) eqn:Hle; [reflexivity|].
  apply Z.leb_gt in Hle. lia.
Qed.

(** ** The outcomes of the analysis *)

Ltac unfold_statements :=
  unfold bind, try_except, lift, assign, operand, index_of, name, bind, ret, raise.

Ltac evaluate :=
  cbn -[comprehension get_historical_price pd.sort_index_desc pd.div pd.sub pd.add
        pd.mul_scalar pd.index].

(** A returned dict comes from a net-income and a shares line and from a
    quote at every EPS period, and binds [eps], [prices], [per] and
    [shares] to the series computed from them. *)
Lemma analysis_inversion (p : Provider) (t : string) (q : bool)
    (bg edo cashflow : pd.Statement) (d : dict) :
  statements (p t) q = (bg, edo, cashflow) ->
  fundamental_analysis p t q = Ok (Some d) ->
  exists income n_shares quotes,
    pd.loc edo "Net Income Common Stockholders" = Ok income /\
    pd.loc bg "Ordinary Shares Number" = Ok n_shares /\
    comprehension (get_historical_price p t) (pd.index (eps_series income n_shares))
      = Ok quotes /\
    lookup "eps" d = Some (PSeries (eps_series income n_shares)) /\
    lookup "prices" d = Some (PSeries (price_series income n_shares quotes)) /\
    lookup "per" d =
      Some (PSeries (pd.sort_index_desc
                       (pd.div (price_series income n_shares quotes)
                               (eps_series income n_shares)))) /\
    lookup "shares" d = Some (PSeries n_shares).
Proof.
  intros Hst. unfold fundamental_analysis. rewrite Hst.
  destruct (no_data bg edo cashflow); [discriminate|].
  unfold_blocks. unfold price_series, eps_series.
  destruct (pd.loc edo "Net Income Common Stockholders") as [income|e1];
    destruct (pd.loc bg "Ordinary Shares Number") as [n_shares|e2].
  - destruct (comprehension (get_historical_price p t)
                (pd.index (pd.sort_index_desc (pd.div income n_shares))))
      as [quotes|e] eqn:Hq;
      unfold_statements;
      split_on_lines bg edo cashflow; evaluate; rewrite Hq; evaluate;
      try discriminate;
      intros [= <-]; exists income, n_shares, quotes; repeat split;
      first [exact Hq | reflexivity].
  - split_on_lines bg edo cashflow; intros H; vm_compute in H; discriminate H.
  - split_on_lines bg edo cashflow; intros H; vm_compute in H; discriminate H.
  - split_on_lines bg edo cashflow; intros H; vm_compute in H; discriminate H.
Qed.

(** The only exception that leaves the analysis is the unbound [prices]
    of the returned dict. *)
Lemma analysis_raises_for_prices (p : Provider) (t : string) (q : bool) (e : exn) :
  fundamental_analysis p t q = Raise e -> e = UnboundLocalError "prices".
Proof.
  unfold fundamental_analysis.
  destruct (statements (p t) q) as [[bg edo] cashflow].
  destruct (no_data bg edo cashflow); [discriminate|].
  unfold_blocks.
  destruct (pd.loc edo "Net Income Common Stockholders") as [income|e1];
    destruct (pd.loc bg "Ordinary Shares Number") as [n_shares|e2].
  - destruct (comprehension (get_historical_price p t)
                (pd.index (pd.sort_index_desc (pd.div income n_shares))))
      as [quotes|e'] eqn:Hq;
      unfold_statements;
      split_on_lines bg edo cashflow; evaluate; rewrite Hq; evaluate;
      try discriminate; now intros [= <-].
  - split_on_lines bg edo cashflow; intros H; vm_compute in H; now injection H as <-.
  - split_on_lines bg edo cashflow; intros H; vm_compute in H; now injection H as <-.
  - split_on_lines bg edo cashflow; intros H; vm_compute in H; now injection H as <-.
Qed.

Lemma comprehension_Ok {A B : Type} (f : A -> res B) (xs : list A) (ys : list B) :
  comprehension f xs = Ok ys -> Forall2 (fun x y => f x = Ok y) xs ys.
Proof.
  revert ys. induction xs as [|x xs IH]; simpl; intros ys.
  - intros [= <-]. constructor.
  - destruct (f x) as [y|e] eqn:Hx; [|discriminate].
    destruct (comprehension f xs) as [ys'|e]; [|discriminate].
    intros [= <-]. constructor; [exact Hx|now apply IH].
Qed.

Lemma comprehension_Raise {A B : Type} (f : A -> res B) (xs : list A) (x : A) (e : exn) :
  In x xs -> f x = Raise e -> exists e', comprehension f xs = Raise e'.
Proof.
  induction xs as [|x0 xs IH]; simpl; [intros []|].
  intros Hin Hx. destruct (f x0) as [y|e0] eqn:Hx0; [|now exists e0].
  destruct Hin as [->|Hin]; [rewrite Hx in Hx0; discriminate|].
  destruct (IH Hin Hx) as [e' ->]. now exists e'.
Qed.

(** A record comes from a returned dict, whose cells and flag it holds. *)
Lemma produced_from_dict (p : Provider) (t : string) (r : RatioRecord) :
  In r (produced p t) ->
  exists d,
    fundamental_analysis p t false = Ok (Some d) /\
    same_period d r /\
    incomplete r = flag d "incomplete".
Proof.
  unfold produced, ticker_frame.
  destruct (analysed p t) as [f|e] eqn:Han; [|intros []].
  unfold analysed in Han.
  destruct (fundamental_analysis p t false) as [[d|]|e] eqn:Hfa;
    [| simpl in Han; discriminate | discriminate].
  unfold DataFrame in Han.
  destruct (series_indexes d) as [|i idx]; [discriminate|].
  match type of Han with context [if ?c then _ else _] => destruct c end; [|discriminate].
  injection Han as <-. unfold drop_and_date, dropna_all. cbn [frows].
  intros Hin. apply filter_In in Hin as [Hin _].
  apply in_map_iff in Hin as ([r0 x] & <- & Hin).
  apply in_combine_l in Hin.
  apply in_map_iff in Hin as (r1 & <- & Hin).
  apply in_map_iff in Hin as (lbl & <- & _).
  exists d. split; [reflexivity|]. split; [|reflexivity].
  unfold same_period. simpl. repeat split; reflexivity.
Qed.

Lemma series_indexes_lookup (d : dict) (k : string) (s : pd.Series) :
  lookup k d = Some (PSeries s) -> series_indexes d <> [].
Proof.
  unfold lookup. induction d as [|[k0 v] d IH]; simpl; [discriminate|].
  destruct (String.eqb k0 k).
  - intros [= ->]. discriminate.
  - intros H. destruct v; try discriminate; now apply IH.
Qed.

(** ** Statements with a single period *)

Lemma removelast_short {A : Type} (l : list A) :
  (List.length l <= 1)%nat -> removelast l = [].
Proof.
  destruct l as [|x [|y l]]; simpl; intros H; try reflexivity. lia.
Qed.

Lemma size_but_last (df : pd.Statement) :
  (List.length (pd.columns df) <= 1)%nat -> pd.size (pd.iloc_but_last df) = 0%nat.
Proof.
  intros H. unfold pd.size, pd.iloc_but_last. cbn [pd.columns pd.rows].
  rewrite (removelast_short _ H). simpl. apply Nat.mul_0_r.
Qed.

(** The cut of lines 29-30 leaves nothing of a balance sheet or income
    statement that reports a single period: the ticker is treated as
    having no data and contributes no record. *)
Theorem single_period_statement_gives_no_records :
  forall (p : Provider) (t : string),
    (List.length (pd.columns (yf.balance_sheet (p t))) <= 1)%nat \/
    (List.length (pd.columns (yf.incomestmt (p t))) <= 1)%nat ->
    fundamental_analysis p t false = Ok None /\ produced p t = [].
Proof.
  intros p t Hone.
  assert (Hempty : an_empty_statement p t).
  { unfold an_empty_statement, statements, no_data. cbn [fst snd].
    destruct Hone as [H|H]; rewrite (size_but_last _ H); simpl;
      [reflexivity|]. now rewrite Bool.orb_true_r. }
  split; [now apply empty_statement_returns_None|].
  unfold produced. now rewrite (empty_statement_raises p t Hempty).
Qed.

Lemma single_period_statement_gives_no_records_witness :
  (List.length (pd.columns (yf.balance_sheet (single_period_market "EEE"))) <= 1)%nat /\
  fundamental_analysis single_period_market "EEE" false = Ok None /\
  produced single_period_market "EEE" = [].
Proof.
  assert (H : (List.length (pd.columns (yf.balance_sheet (single_period_market "EEE")))
               <= 1)%nat) by (simpl; lia).
  split; [exact H|].
  exact (single_period_statement_gives_no_records single_period_market "EEE"
           (or_introl H)).
Defined.

(** ** Prices *)

Lemma resolved_value (f : pd.Timestamp -> res float)
    (xs : pd.Index) (ys : list float) :
  Forall2 (fun x y => f x = Ok y) xs ys ->
  forall d,
    is_nan (pd.value_at (combine xs ys) d) = false ->
    f d = Ok (pd.value_at (combine xs ys) d).
Proof.
  induction 1 as [|x y xs ys Hxy Hrest IH]; intros d.
  - change (is_nan nan = false -> f d = Ok nan). discriminate.
  - cbn [combine]. rewrite value_at_cons. cbn [fst snd].
    destruct (x =? d) eqn:Hx; [|apply IH].
    apply Z.eqb_eq in Hx. now subst.
Qed.

(** Every price a record holds is the close [get_historical_price]
    resolves for the record's own date. *)
Theorem record_prices_are_resolved_closes :
  forall (p : Provider) (t : string),
    Forall (fun r =>
              is_nan (prices r) = false ->
              get_historical_price p t (date r) = Ok (prices r))
           (produced p t).
Proof.
  intros p t. apply Forall_forall. intros r Hin Hnan.
  destruct (produced_from_dict p t r Hin) as (d & Hfa & Hsame & _).
  destruct (statements (p t) false) as [[bg edo] cashflow] eqn:Hst.
  destruct (analysis_inversion p t false bg edo cashflow d Hst Hfa)
    as (income & n_shares & quotes & _ & _ & Hq & _ & Hprices & _).
  destruct Hsame as (_ & _ & _ & _ & _ & _ & _ & Hp & _).
  unfold cell in Hp. rewrite Hprices in Hp. unfold price_series in Hp.
  rewrite value_at_sort_index_desc in Hp. rewrite Hp in *.
  apply comprehension_Ok in Hq.
  now apply (resolved_value _ _ _ Hq).
Qed.

(** An EPS period with no trading day in its window of four days makes
    the analysis raise: [prices] is left unbound. *)
Theorem unresolved_price_raises :
  forall (p : Provider) (t : string) (use_quarterly : bool)
         (bg edo cashflow : pd.Statement) (income n_shares : pd.Series)
         (d0 : pd.Timestamp),
    statements (p t) use_quarterly = (bg, edo, cashflow) ->
    no_data bg edo cashflow = false ->
    pd.loc edo "Net Income Common Stockholders" = Ok income ->
    pd.loc bg "Ordinary Shares Number" = Ok n_shares ->
    In d0 (pd.index (eps_series income n_shares)) ->
    yf.history (p t) d0 (d0 + 4) = [] ->
    fundamental_analysis p t use_quarterly = Raise (UnboundLocalError "prices").
Proof.
  intros p t q bg edo cashflow income n_shares d0 Hst Hdata Hinc Hsh Hin Hgap.
  assert (Hfail : get_historical_price p t d0 = Raise IndexError).
  { unfold get_historical_price. now rewrite Hgap. }
  destruct (comprehension_Raise _ _ _ _ Hin Hfail) as [e' Hq].
  destruct (fundamental_analysis p t q) as [[d|]|e] eqn:Hfa.
  - destruct (analysis_inversion p t q bg edo cashflow d Hst Hfa)
      as (income' & n_shares' & quotes & Hinc' & Hsh' & Hq' & _).
    rewrite Hinc in Hinc'. rewrite Hsh in Hsh'.
    injection Hinc' as <-. injection Hsh' as <-.
    rewrite Hq in Hq'. discriminate.
  - unfold fundamental_analysis in Hfa. rewrite Hst, Hdata in Hfa.
    destruct (fst (analysis_body p t bg edo cashflow [])); discriminate.
  - now rewrite (analysis_raises_for_prices p t q e Hfa).
Qed.

(** [AAA] without a quote in the four days from 2022-12-31. *)
Lemma unresolved_price_raises_witness :
  fundamental_analysis gap_market "AAA" false = Raise (UnboundLocalError "prices").
Proof.
  apply (unresolved_price_raises gap_market "AAA" false
           (pd.iloc_but_last Sample.balance_AAA) (pd.iloc_but_last Sample.income_AAA)
           Sample.cashflow_AAA
           (net_income lines_AAA) (ordinary_shares lines_AAA) 19357).
  - reflexivity.
  - reflexivity.
  - reflexivity.
  - reflexivity.
  - vm_compute. tauto.
  - reflexivity.
Defined.

(** ** Why a ticker is skipped *)

(** With the statements and quotes delivered, the frame of a ticker can
    only raise in two ways: the analysis returned [None] and line 163
    raises [KeyError] on the empty frame, or the analysis itself raised the
    [UnboundLocalError] of [prices]; building the frame from a returned
    dict never raises. *)
Lemma frame_raises_for_prices :
  forall (p : Provider) (t : string) (e : exn),
    ticker_frame p t = Raise e ->
    (an_empty_statement p t /\ e = KeyError "prices") \/
    (~ an_empty_statement p t /\ e = UnboundLocalError "prices" /\
     fundamental_analysis p t false = Raise e).
Proof.
  intros p t e. unfold ticker_frame.
  destruct (analysed p t) as [f|e0] eqn:Han; [discriminate|].
  intros [= ->]. unfold analysed in Han.
  destruct (fundamental_analysis p t false) as [[d|]|e0] eqn:Hfa.
  - exfalso.
    destruct (statements (p t) false) as [[bg edo] cashflow] eqn:Hst.
    destruct (analysis_inversion p t false bg edo cashflow d Hst Hfa)
      as (income & n_shares & quotes & _ & _ & _ & _ & Hprices & _).
    apply series_indexes_lookup in Hprices.
    apply fundamental_analysis_keys in Hfa.
    unfold DataFrame in Han.
    destruct (series_indexes d) as [|i idx]; [now apply Hprices|].
    cbn [fcolumns frows] in Han. rewrite Hfa in Han. simpl in Han. discriminate.
  - left. simpl in Han. injection Han as <-. split; [|reflexivity].
    unfold fundamental_analysis in Hfa. unfold an_empty_statement.
    destruct (statements (p t) false) as [[bg edo] cashflow]. cbn [fst snd].
    destruct (no_data bg edo cashflow); [reflexivity|].
    destruct (fst (analysis_body p t bg edo cashflow [])); discriminate.
  - right. injection Han as <-.
    pose proof (analysis_raises_for_prices p t false e0 Hfa) as ->.
    split; [|now split].
    intros Hempty. rewrite (empty_statement_returns_None p t Hempty) in Hfa.
    discriminate.
Qed.

(** ** The formula table *)

(** With the eight lines present and a quote at every EPS period the
    analysis returns the dict of the formulas, nothing marked. *)
Lemma complete_analysis (p : Provider) (t : string) (q : bool)
    (bg edo cashflow : pd.Statement) (L : Lines) (quotes : list float) :
  statements (p t) q = (bg, edo, cashflow) ->
  no_data bg edo cashflow = false ->
  has_lines bg edo cashflow L ->
  comprehension (get_historical_price p t)
    (pd.index (eps_series (net_income L) (ordinary_shares L))) = Ok quotes ->
  fundamental_analysis p t q = Ok (Some (complete_dict L quotes)).
Proof.
  intros Hst Hdata (H1 & H2 & H3 & H4 & H5 & H6 & H7 & H8) Hq.
  unfold fundamental_analysis. rewrite Hst, Hdata.
  unfold_blocks. rewrite H1, H2, H3, H4, H5, H6, H7, H8.
  unfold eps_series in Hq.
  unfold_statements. evaluate. rewrite Hq. evaluate. reflexivity.
Qed.

Ltac by_label :=
  rewrite ?value_at_sort_index_desc;
  unfold pd.div, pd.add, pd.sub;
  repeat first [ rewrite value_at_binop by reflexivity
               | rewrite value_at_mul_scalar by reflexivity
               | rewrite value_at_sort_index_desc ].

(** For a ticker with the eight lines and a quote at every EPS period,
    every record is unmarked and each of its ratios is the formula of the
    method applied to the line values of the record's own period. *)
Theorem records_follow_the_formulas :
  forall (p : Provider) (t : string) (bg edo cashflow : pd.Statement)
         (L : Lines) (quotes : list float),
    statements (p t) false = (bg, edo, cashflow) ->
    no_data bg edo cashflow = false ->
    has_lines bg edo cashflow L ->
    comprehension (get_historical_price p t)
      (pd.index (eps_series (net_income L) (ordinary_shares L))) = Ok quotes ->
    Forall (follows_formulas L) (produced p t).
Proof.
  intros p t bg edo cashflow L quotes Hst Hdata Hlines Hq.
  pose proof (complete_analysis p t false bg edo cashflow L quotes Hst Hdata Hlines Hq)
    as Hfa.
  apply Forall_forall. intros r Hin.
  destruct (produced_from_dict p t r Hin) as (d & Hfa' & Hsame & Hflag).
  rewrite Hfa in Hfa'. injection Hfa' as <-.
  destruct Hsame as (Heps & Hper & Hebitda & Hpbv & Hsolv & Hroe & Hfcf & Hprices & Hshares).
  unfold cell, complete_dict in *. cbn [lookup find fst snd String.eqb Ascii.eqb Bool.eqb]
    in Heps, Hper, Hebitda, Hpbv, Hsolv, Hroe, Hfcf, Hprices, Hshares.
  unfold follows_formulas.
  assert (HE : eps r = PrimFloat.div (pd.value_at (net_income L) (date r))
                         (pd.value_at (ordinary_shares L) (date r))).
  { rewrite Heps. unfold eps_series. by_label. reflexivity. }
  split; [exact Hflag|]. split; [exact HE|].
  split; [rewrite Hper; by_label; now rewrite <- Hprices, <- Heps|].
  split; [rewrite Hebitda; by_label; reflexivity|].
  split; [rewrite Hpbv; by_label; now rewrite <- Hprices|].
  split; [rewrite Hsolv; by_label; reflexivity|].
  split; [rewrite Hroe; by_label; reflexivity|].
  split; [rewrite Hfcf; by_label; reflexivity|].
  exact Hshares.
Qed.

(** [AAA] has the eight lines; its three EPS periods resolve to 18, 15 and
    12. *)
Lemma records_follow_the_formulas_witness :
  produced Sample.market "AAA" <> [] /\
  Forall (follows_formulas lines_AAA) (produced Sample.market "AAA").
Proof.
  split; [vm_compute; discriminate|].
  apply (records_follow_the_formulas Sample.market "AAA"
           (pd.iloc_but_last Sample.balance_AAA) (pd.iloc_but_last Sample.income_AAA)
           Sample.cashflow_AAA lines_AAA [18%float; 15%float; 12%float]).
  - reflexivity.
  - reflexivity.
  - repeat split; reflexivity.
  - vm_compute. reflexivity.
Defined.

(** ** What reaches the two files *)

Lemma logged_app (l1 l2 : list (csv_line string)) :
  logged (l1 ++ l2) = logged l1 ++ logged l2.
Proof. unfold logged. apply flat_map_app. Qed.

Lemma logged_Data (l : list string) : logged (map Data l) = l.
Proof.
  induction l as [|t l IH]; simpl; [reflexivity|]. now rewrite IH.
Qed.

Lemma noted_flagged (p : Provider) (t : string) (f : Frame) (st : Loop) :
  ticker_frame p t = Ok f ->
  noted t f st = incomplete_list st ++ (if flagged p t then [t] else []).
Proof.
  intros Hf. unfold noted, flagged, produced. rewrite Hf.
  destruct (existsb incomplete (frows f)); [reflexivity|now rewrite app_nil_r].
Qed.

(** An iteration adds the ticker's records to what is written or still in
    the batch, and the ticker, when flagged, to what is logged or still
    pending: records and tickers move from the accumulators to the files
    and nowhere else. *)
Lemma iteration_accounts (p : Provider) (n i : nat) (t : string) (st : Loop) :
  records_of (results_csv (disk (iteration p n i t st))) ++
    frows (batch (iteration p n i t st)) =
  (records_of (results_csv (disk st)) ++ frows (batch st)) ++ produced p t
  /\
  logged (incomplete_csv (disk (iteration p n i t st))) ++
    incomplete_list (iteration p n i t st) =
  (logged (incomplete_csv (disk st)) ++ incomplete_list st) ++
    (if flagged p t then [t] else []).
Proof.
  destruct (iteration_step p n i t st)
    as [e Hf|f Hf Hdue|f e d Hf Hdue Hw|f d Hf Hdue Hw Hn|f e d d' Hf Hdue Hw Hn Hl
        |f d d' Hf Hdue Hw Hn Hl];
    cbn [disk batch incomplete_list empty_frame frows concat];
    try (pose proof (noted_flagged p t f st Hf) as Hnoted);
    try (assert (Hprod : produced p t = frows f) by (unfold produced; now rewrite Hf));
    try rewrite Hprod.
  - unfold flagged, produced. rewrite Hf. simpl. now rewrite !app_nil_r.
  - rewrite Hnoted, !app_assoc. now split.
  - apply to_csv_results_files in Hw as [-> ->].
    rewrite Hnoted, !app_assoc. now split.
  - pose proof (flushed_records _ _ _ Hw) as ->.
    apply to_csv_results_files in Hw as [-> _].
    cbn [concat frows]. rewrite !app_nil_r, <- !app_assoc, <- Hnoted, Hn, ?app_nil_r.
    now split.
  - pose proof (to_csv_incomplete_files _ _ _ _ _ _ Hl) as [-> ->].
    pose proof (flushed_records _ _ _ Hw) as ->.
    apply to_csv_results_files in Hw as [-> _].
    cbn [concat frows]. rewrite !app_nil_r, Hnoted, !app_assoc. now split.
  - pose proof (to_csv_incomplete_files _ _ _ _ _ _ Hl) as [-> ->].
    pose proof (flushed_records _ _ _ Hw) as ->.
    apply to_csv_results_files in Hw as [-> _].
    unfold written. rewrite logged_app. cbn [logged flat_map app].
    fold (logged (map Data (noted t f st))). rewrite logged_Data.
    cbn [concat frows]. rewrite !app_nil_r, Hnoted, !app_assoc. now split.
Qed.

Lemma loop_accounts (p : Provider) (n : nat) (tickers : list string) :
  forall i st,
    records_of (results_csv (disk (loop p n i tickers st))) ++
      frows (batch (loop p n i tickers st)) =
    (records_of (results_csv (disk st)) ++ frows (batch st)) ++
      flat_map (produced p) tickers
    /\
    logged (incomplete_csv (disk (loop p n i tickers st))) ++
      incomplete_list (loop p n i tickers st) =
    (logged (incomplete_csv (disk st)) ++ incomplete_list st) ++
      filter (flagged p) tickers.
Proof.
  induction tickers as [|t tickers IH]; intros i st; simpl.
  - now rewrite !app_nil_r.
  - destruct (IH (S i) (iteration p n i t st)) as [-> ->].
    destruct (iteration_accounts p n i t st) as [-> ->].
    rewrite <- !app_assoc.
    split; [reflexivity|]. now destruct (flagged p t).
Qed.

(** ** A run that ends on a built frame *)

Lemma to_csv_results_keeps_fault_free (f : Frame) (m : mode) (d d' : Disk) (r : res unit) :
  fault_free d -> to_csv_results f m d = (r, d') -> fault_free d'.
Proof.
  unfold fault_free, to_csv_results. intros Hd.
  destruct (faults d) as [|[|] fs]; intros [= <- <-]; simpl;
    try constructor; now inversion Hd.
Qed.

Lemma to_csv_incomplete_keeps_fault_free (cols l : list string) (m : mode) (d d' : Disk)
    (r : res unit) :
  fault_free d -> to_csv_incomplete cols l m d = (r, d') -> fault_free d'.
Proof.
  unfold fault_free, to_csv_incomplete. intros Hd.
  destruct (faults d) as [|[|] fs]; intros [= <- <-]; simpl;
    try constructor; now inversion Hd.
Qed.

Lemma iteration_keeps_fault_free (p : Provider) (n i : nat) (t : string) (st : Loop) :
  fault_free (disk st) -> fault_free (disk (iteration p n i t st)).
Proof.
  intros Hfree.
  destruct (iteration_step p n i t st)
    as [e Hf|f Hf Hdue|f e d Hf Hdue Hw|f d Hf Hdue Hw Hn|f e d d' Hf Hdue Hw Hn Hl
        |f d d' Hf Hdue Hw Hn Hl];
    cbn [disk]; eauto using to_csv_results_keeps_fault_free,
                  to_csv_incomplete_keeps_fault_free.
Qed.

(** A flush that is due, on a built frame and storage without faults,
    leaves both accumulators empty. *)
Lemma iteration_empties (p : Provider) (n i : nat) (t : string) (st : Loop) :
  fault_free (disk st) ->
  (exists f, ticker_frame p t = Ok f) ->
  flush_due n i = true ->
  frows (batch (iteration p n i t st)) = [] /\ incomplete_list (iteration p n i t st) = [].
Proof.
  intros Hfree [f0 Hok] Hflush.
  destruct (iteration_step p n i t st)
    as [e Hf|f Hf Hdue|f e d Hf Hdue Hw|f d Hf Hdue Hw Hn|f e d d' Hf Hdue Hw Hn Hl
        |f d d' Hf Hdue Hw Hn Hl];
    cbn [batch incomplete_list empty_frame frows]; auto.
  - rewrite Hok in Hf. discriminate.
  - rewrite Hflush in Hdue. discriminate.
  - destruct (to_csv_results_fault_free (concat (batch st) f) mode_a _ Hfree)
      as (d0 & Hw0 & _). rewrite Hw0 in Hw. discriminate.
  - pose proof (to_csv_results_keeps_fault_free _ _ _ _ _ Hfree Hw) as Hfree'.
    destruct (to_csv_incomplete_fault_free ["ticker"] (noted t f st) mode_a _ Hfree')
      as (d1 & Hl1 & _). rewrite Hl1 in Hl. discriminate.
Qed.

Lemma loop_app (p : Provider) (n : nat) (l1 l2 : list string) :
  forall i st,
    loop p n i (l1 ++ l2) st = loop p n (i + List.length l1) l2 (loop p n i l1 st).
Proof.
  induction l1 as [|t l1 IH]; intros i st; simpl.
  - now rewrite Nat.add_0_r.
  - rewrite IH. f_equal. lia.
Qed.

(** On storage without faults, a run whose last ticker's frame is built
    ends with everything written: the results file holds the records of
    all tickers, once each and in processing order, and the incomplete
    file the flagged tickers, whatever happened to the tickers before the
    last. *)
Theorem built_last_ticker_completes_the_files :
  forall (p : Provider) (tickers : list string) (last : string) (d : Disk),
    fault_free d ->
    (exists f, ticker_frame p last = Ok f) ->
    exists r d',
      dataset_generator p (tickers ++ [last]) d = Returned r d' /\
      records_of (results_csv d') = flat_map (produced p) (tickers ++ [last]) /\
      logged (incomplete_csv d') = filter (flagged p) (tickers ++ [last]).
Proof.
  intros p tickers last d Hfree Hok.
  rewrite dataset_generator_run.
  assert (Hstart : fault_free (disk (start d))).
  { unfold start. cbn [disk]. unfold fault_free in *. cbn [faults].
    destruct (faults d) as [|b1 [|b2 fs]]; simpl; try constructor.
    inversion Hfree as [|? ? _ Hfs]; subst. now inversion Hfs. }
  assert (H1 : hd false (faults d) = false).
  { unfold fault_free in Hfree. destruct (faults d) as [|b fs]; [reflexivity|].
    now inversion Hfree. }
  assert (H2 : hd false (tl (faults d)) = false).
  { unfold fault_free in Hfree. destruct (faults d) as [|b1 [|b2 fs]]; try reflexivity.
    inversion Hfree as [|? ? _ Hfs]; subst. now inversion Hfs. }
  rewrite H1, H2. cbv beta iota zeta.
  eexists. eexists. split; [reflexivity|].
  destruct (loop_accounts p (List.length (tickers ++ [last])) (tickers ++ [last])
              0%nat (start d)) as [Hrec Hlog].
  assert (Hend :
            frows (batch (loop p (List.length (tickers ++ [last])) 0 (tickers ++ [last])
                            (start d))) = [] /\
            incomplete_list (loop p (List.length (tickers ++ [last])) 0 (tickers ++ [last])
                               (start d)) = []).
  { rewrite loop_app. cbn [loop]. apply iteration_empties; [|exact Hok|].
    - apply (loop_invariant (fun st => fault_free (disk st)));
        [intros; now apply iteration_keeps_fault_free|exact Hstart].
    - unfold flush_due. rewrite length_app. simpl.
      rewrite Nat.eqb_refl. apply Bool.orb_true_r. }
  destruct Hend as [Hbatch Hlist].
  rewrite Hbatch, Hlist, !app_nil_r in *.
  split; [exact Hrec|exact Hlog].
Qed.

(** Three tickers of which the first is skipped and the second is flagged:
    the six records of [DDD] and [AAA] are on file, and [DDD] is logged. *)
Lemma built_last_ticker_completes_the_files_witness :
  exists r d',
    dataset_generator Sample.market (["CCC"; "DDD"] ++ ["AAA"]) Sample.blank_disk
      = Returned r d' /\
    List.length (records_of (results_csv d')) = 6%nat /\
    logged (incomplete_csv d') = ["DDD"].
Proof.
  destruct (built_last_ticker_completes_the_files Sample.market ["CCC"; "DDD"] "AAA"
              Sample.blank_disk) as (r & d' & Hrun & Hrec & Hlog).
  - constructor.
  - apply frame_built. vm_compute. reflexivity.
  - exists r, d'. split; [exact Hrun|]. rewrite Hrec, Hlog.
    split; vm_compute; reflexivity.
Defined.

(** ** The ticker-level flag *)

(** The [incomplete] cell of every record of a ticker is the flag of the
    ticker's dict; a ticker whose analysis returns [None] or raises has no
    record. *)
Theorem incomplete_flag_is_per_ticker :
  forall (p : Provider) (t : string),
    match fundamental_analysis p t false with
    | Ok (Some d) => Forall (fun r => incomplete r = flag d "incomplete") (produced p t)
    | _ => produced p t = []
    end.
Proof.
  intros p t.
  destruct (fundamental_analysis p t false) as [[d|]|e] eqn:Hfa.
  - apply Forall_forall. intros r Hin.
    destruct (produced_from_dict p t r Hin) as (d' & Hfa' & _ & Hflag).
    rewrite Hfa in Hfa'. now injection Hfa' as <-.
  - unfold produced, ticker_frame, analysed. now rewrite Hfa.
  - unfold produced, ticker_frame, analysed. now rewrite Hfa.
Qed.

(** ** The periods analysed *)

Lemma loc_index (df : pd.Statement) (label : string) (s : pd.Series) (d : pd.Timestamp) :
  pd.loc df label = Ok s -> In d (pd.index s) -> In d (pd.columns df).
Proof.
  unfold pd.loc. destruct (find _ (pd.rows df)) as [r|]; [|discriminate].
  intros [= <-]. unfold pd.index. intros H.
  apply in_map_iff in H as ([x y] & <- & Hxy). now apply in_combine_l in Hxy.
Qed.

(** ** Values combined in a record *)





(** ** Canonical order and same-period combination *)




(** ** Why a ticker is skipped, over a provider that may fail *)

(** An iteration can end before its accumulation in three ways only: the
    provider raises while the statements are fetched, outside every [try]
    of the analysis; the analysis returns [None] and line 163 raises
    [KeyError] on the empty frame; the analysis raises the
    [UnboundLocalError] of [prices].  Building the frame from a returned
    dict never raises. *)
Theorem ticker_is_skipped_for_fetch_or_prices :
  forall (fetch : Fetch) (t : string) (e : exn),
    ticker_frame_fetching fetch t = Raise e ->
    (fetch t = Raise e /\ fundamental_analysis_fetching fetch t false = Raise e) \/
    (exists info,
        fetch t = Ok info /\
        ((an_empty_statement (fun _ => info) t /\
          fundamental_analysis_fetching fetch t false = Ok None /\
          e = KeyError "prices") \/
         (~ an_empty_statement (fun _ => info) t /\
          fundamental_analysis_fetching fetch t false = Raise e /\
          e = UnboundLocalError "prices"))).
Proof.
  intros fetch t e. unfold ticker_frame_fetching, fundamental_analysis_fetching.
  destruct (fetch t) as [info|e0].
  - intros Hframe. right. exists info. split; [reflexivity|].
    destruct (frame_raises_for_prices (fun _ => info) t e Hframe)
      as [[Hempty ->]|(Hfull & -> & Hfa)].
    + left. split; [exact Hempty|]. split; [|reflexivity].
      now apply empty_statement_returns_None.
    + right. now repeat split.
  - intros [= ->]. left. now split.
Qed.

(** The provider is down for [ZZZ]: its exception is the one that ends
    the iteration. *)
Lemma ticker_is_skipped_for_fetch_or_prices_witness :
  ticker_frame_fetching flaky_fetch "ZZZ" = Raise OSError /\
  ticker_frame_fetching flaky_fetch "BBB" = Raise (UnboundLocalError "prices") /\
  exists info,
    flaky_fetch "BBB" = Ok info /\ ~ an_empty_statement (fun _ => info) "BBB".
Proof.
  split; [reflexivity|].
  assert (H : ticker_frame_fetching flaky_fetch "BBB" = Raise (UnboundLocalError "prices"))
    by reflexivity.
  split; [exact H|].
  destruct (ticker_is_skipped_for_fetch_or_prices flaky_fetch "BBB" _ H)
    as [[Habs _]|(info & Hinfo & [(_ & _ & Habs)|(Hfull & _)])].
  - discriminate Habs.
  - discriminate Habs.
  - now exists info.
Defined.

(** ** What reaches the two files when no write fails *)

(** On storage where no write fails, whatever tickers raised, the run
    returns with the results file holding, in processing order and once
    each, a leading part of the records the tickers produce, and the
    incomplete file a leading part of the flagged tickers: no record or
    ticker is written twice, out of order, or without having been produced
    or flagged. *)
Theorem files_hold_leading_parts :
  forall (p : Provider) (tickers : list string) (d : Disk),
    fault_free d ->
    exists r d' unwritten pending,
      dataset_generator p tickers d = Returned r d' /\
      records_of (results_csv d') ++ unwritten = flat_map (produced p) tickers /\
      logged (incomplete_csv d') ++ pending = filter (flagged p) tickers.
Proof.
  intros p tickers d Hfree. rewrite dataset_generator_run.
  assert (H1 : hd false (faults d) = false).
  { unfold fault_free in Hfree. destruct (faults d) as [|b fs]; [reflexivity|].
    now inversion Hfree. }
  assert (H2 : hd false (tl (faults d)) = false).
  { unfold fault_free in Hfree. destruct (faults d) as [|b1 [|b2 fs]]; try reflexivity.
    inversion Hfree as [|? ? _ Hfs]; subst. now inversion Hfs. }
  rewrite H1, H2. cbv beta iota zeta.
  destruct (loop_accounts p (List.length tickers) tickers 0%nat (start d)) as [Hrec Hlog].
  eexists. eexists. eexists. eexists. split; [reflexivity|]. split; [exact Hrec|exact Hlog].
Qed.

(** Twenty tickers, then [DDD], which is flagged, and a last ticker that
    raises. *)
Lemma files_hold_leading_parts_witness :
  exists r d' unwritten pending,
    dataset_generator Sample.market (firstn 20 Sample.tickers21 ++ ["DDD"; "CCC"])
      Sample.blank_disk = Returned r d' /\
    records_of (results_csv d') ++ unwritten =
      flat_map (produced Sample.market) (firstn 20 Sample.tickers21 ++ ["DDD"; "CCC"]) /\
    logged (incomplete_csv d') ++ pending =
      filter (flagged Sample.market) (firstn 20 Sample.tickers21 ++ ["DDD"; "CCC"]).
Proof.
  apply (files_hold_leading_parts Sample.market
           (firstn 20 Sample.tickers21 ++ ["DDD"; "CCC"]) Sample.blank_disk).
  constructor.
Defined.

(** ** The periods analysed *)

Lemma is_nan_div_nan_l (y : float) : is_nan (PrimFloat.div nan y) = true.
Proof.
  unfold is_nan. rewrite FloatAxioms.eqb_spec, FloatAxioms.div_spec.
  change (Prim2SF nan) with S754_nan. reflexivity.
Qed.

Lemma is_nan_div_nan_r (x : float) : is_nan (PrimFloat.div x nan) = true.
Proof.
  unfold is_nan. rewrite FloatAxioms.eqb_spec, FloatAxioms.div_spec.
  change (Prim2SF nan) with S754_nan.
  destruct (Prim2SF x); reflexivity.
Qed.

(** A record has an EPS only at a period that is a column of the annual
    balance sheet and a column of the annual income statement, the last
    column by position of each left out: the columns cut on lines 29-30
    contribute no EPS. *)
Theorem eps_periods_exclude_the_last_column :
  forall (p : Provider) (t : string),
    Forall (fun r =>
              is_nan (eps r) = false ->
              In (date r) (removelast (pd.columns (yf.balance_sheet (p t)))) /\
              In (date r) (removelast (pd.columns (yf.incomestmt (p t)))))
           (produced p t).
Proof.
  intros p t. apply Forall_forall. intros r Hin Hnan.
  destruct (produced_from_dict p t r Hin) as (d & Hfa & Hsame & _).
  destruct (analysis_inversion p t false _ _ _ d eq_refl Hfa)
    as (income & n_shares & quotes & Hinc & Hsh & _ & Heps & _).
  destruct Hsame as (He & _).
  unfold cell in He. rewrite Heps in He. unfold eps_series in He.
  rewrite value_at_sort_index_desc in He. unfold pd.div in He.
  rewrite value_at_binop in He by reflexivity.
  rewrite He in Hnan. split.
  - destruct (in_dec Z.eq_dec (date r) (pd.index n_shares)) as [Hdate|Hout].
    + exact (loc_index _ _ _ _ Hsh Hdate).
    + rewrite (value_at_absent _ _ Hout), is_nan_div_nan_r in Hnan. discriminate.
  - destruct (in_dec Z.eq_dec (date r) (pd.index income)) as [Hdate|Hout].
    + exact (loc_index _ _ _ _ Hinc Hdate).
    + rewrite (value_at_absent _ _ Hout), is_nan_div_nan_l in Hnan. discriminate.
Qed.
